(** * SkillWise: the recommendation engine ([server/ai.ts]) and the
    selection / roadmap materializer ([server/routes.ts], [server/storage.ts])
    as a shallow embedding. *)

From Stdlib Require Import String Ascii List ZArith Bool Lia.
Import ListNotations.
Open Scope string_scope.
Open Scope list_scope.
Set Warnings "-register-all".

(* ================================================================== *)
(** ** JavaScript values produced by [JSON.parse] *)

(** A parsed JSON value. The fields of an object are its own enumerable
    properties, in enumeration order, with distinct keys. A number is an
    integer [n] with [|n| < 2^53] (a safe integer), whose [toString] is its
    decimal notation; fractions and larger magnitudes are not represented. *)
Inductive json : Type :=
| JNull
| JBool (b : bool)
| JNum (n : Z)
| JStr (s : string)
| JArr (xs : list json)
| JObj (fields : list (string * json)).

(** Property access [v.k] on a parsed value: [Some] is a defined value,
    [None] is [undefined]; [JS_throw] is the [TypeError] raised when
    reading a property of [null]. *)
Inductive access : Type :=
| Defined (v : json)
| Undefined
| JS_throw.

Fixpoint assoc (k : string) (fs : list (string * json)) : option json :=
  match fs with
  | [] => None
  | (k', v) :: fs' => if String.eqb k k' then Some v else assoc k fs'
  end.

Definition get (v : json) (k : string) : access :=
  match v with
  | JNull => JS_throw
  | JObj fs => match assoc k fs with Some x => Defined x | None => Undefined end
  | _ => Undefined
  end.

(** JavaScript truthiness of a parsed value. *)
Definition truthy (v : json) : bool :=
  match v with
  | JNull => false
  | JBool b => b
  | JNum n => negb (Z.eqb n 0)
  | JStr s => negb (String.eqb s "")
  | JArr _ | JObj _ => true
  end.

Definition truthy_access (a : access) : bool :=
  match a with Defined v => truthy v | _ => false end.

(** [Array.isArray]. *)
Definition as_array (v : json) : option (list json) :=
  match v with JArr xs => Some xs | _ => None end.

(** [Object.values] of a non-null value: the property values of an object,
    the elements of an array, the one-character strings of a string, and
    nothing for a number or a boolean. *)
Fixpoint string_chars (s : string) : list json :=
  match s with
  | EmptyString => []
  | String c s' => JStr (String c EmptyString) :: string_chars s'
  end.

Definition object_values (v : json) : list json :=
  match v with
  | JObj fs => map snd fs
  | JArr xs => xs
  | JStr s => string_chars s
  | _ => []
  end.

(** [xs.filter(Array.isArray)[0]]: the first array-valued entry. *)
Fixpoint first_array (xs : list json) : option (list json) :=
  match xs with
  | [] => None
  | x :: xs' => match as_array x with Some a => Some a | None => first_array xs' end
  end.

(* ================================================================== *)
(** ** The upstream completion call *)

(** What [openai.chat.completions.create] followed by reading
    [choices[0].message.content] and [JSON.parse(content)] yields:
    the request rejects (transport error, timeout), the content is [null]
    or the empty string, the content is not JSON, or it parses to a value. *)
Inductive upstream : Type :=
| UTransportError
| UNoContent
| UNotJson
| UJson (v : json).

(* ================================================================== *)
(** ** Strings: [toLowerCase] and [includes] *)

(** [toLowerCase] on ASCII characters. *)
Definition lower_ascii (c : ascii) : ascii :=
  let n := nat_of_ascii c in
  if ((65 <=? n) && (n <=? 90))%nat then ascii_of_nat (n + 32)%nat else c.

Fixpoint toLowerCase (s : string) : string :=
  match s with
  | EmptyString => EmptyString
  | String c s' => String (lower_ascii c) (toLowerCase s')
  end.

(** [s.includes(sub)]: [sub] occurs at some position of [s]. *)
Fixpoint includes (s sub : string) : bool :=
  String.prefix sub s ||
  match s with
  | EmptyString => false
  | String _ s' => includes s' sub
  end.

(* ================================================================== *)
(** ** Schema records *)

Record Skill : Type := mkSkill {
  skill_name : string;
  skill_category : string;
  skill_proficiency : string
}.

Record CareerRecommendation : Type := mkRec {
  rec_title : string;
  rec_description : string;
  rec_matchPercentage : Z;
  rec_matchReasons : list string;
  rec_requiredSkills : list string;
  rec_salaryRange : string;
  rec_demandLevel : string
}.

(** A [CareerRecommendation] object as a JavaScript value. *)
Definition recommendation_to_json (r : CareerRecommendation) : json :=
  JObj [("title", JStr (rec_title r));
        ("description", JStr (rec_description r));
        ("matchPercentage", JNum (rec_matchPercentage r));
        ("matchReasons", JArr (map JStr (rec_matchReasons r)));
        ("requiredSkills", JArr (map JStr (rec_requiredSkills r)));
        ("salaryRange", JStr (rec_salaryRange r));
        ("demandLevel", JStr (rec_demandLevel r))].

(* ================================================================== *)
(** ** [getDefaultCareerRecommendations] *)

Definition web_keywords : list string :=
  ["javascript"; "typescript"; "react"; "html"; "css"; "node"].

Definition data_keywords : list string :=
  ["python"; "sql"; "data"; "analytics"; "machine learning"; "statistics"].

Definition matches_family (family : list string) (s : Skill) : bool :=
  existsb (fun tech => includes (toLowerCase (skill_name s)) tech) family.

Definition full_stack_rec : CareerRecommendation := {|
  rec_title := "Full-Stack Developer";
  rec_description := "Build complete web applications from frontend to backend. Work with modern frameworks and databases to create scalable solutions.";
  rec_matchPercentage := 85;
  rec_matchReasons := ["Your JavaScript/TypeScript skills are highly valued";
                       "Frontend experience translates directly to this role";
                       "Growing demand for full-stack developers in the industry"];
  rec_requiredSkills := ["JavaScript"; "TypeScript"; "React"; "Node.js"; "SQL"; "REST APIs"];
  rec_salaryRange := "$80,000 - $150,000";
  rec_demandLevel := "High" |}.

Definition data_analyst_rec : CareerRecommendation := {|
  rec_title := "Data Analyst";
  rec_description := "Transform raw data into actionable insights. Use statistical analysis and visualization to drive business decisions.";
  rec_matchPercentage := 80;
  rec_matchReasons := ["Your analytical skills are perfect for data analysis";
                       "SQL and Python knowledge is essential for this role";
                       "Data-driven decision making is increasingly important"];
  rec_requiredSkills := ["Python"; "SQL"; "Excel"; "Data Visualization"; "Statistics"];
  rec_salaryRange := "$60,000 - $100,000";
  rec_demandLevel := "High" |}.

Definition software_dev_rec : CareerRecommendation := {|
  rec_title := "Software Developer";
  rec_description := "Design, develop, and maintain software applications. Work with various technologies to solve complex problems.";
  rec_matchPercentage := 70;
  rec_matchReasons := ["Software development is a versatile career path";
                       "Your existing skills provide a foundation to build on";
                       "Continuous learning is valued in this field"];
  rec_requiredSkills := ["Programming"; "Problem Solving"; "Version Control"; "Testing"; "Documentation"];
  rec_salaryRange := "$70,000 - $130,000";
  rec_demandLevel := "High" |}.

(** The three [push]es onto [recommendations], in source order. *)
Definition getDefaultCareerRecommendations (skills : list Skill)
  : list CareerRecommendation :=
  let hasWebSkills := existsb (matches_family web_keywords) skills in
  let hasDataSkills := existsb (matches_family data_keywords) skills in
  let r1 := if hasWebSkills then [full_stack_rec] else [] in
  let r2 := r1 ++ (if hasDataSkills then [data_analyst_rec] else []) in
  if Nat.eqb (length r2) 0 then r2 ++ [software_dev_rec] else r2.

(* ================================================================== *)
(** ** [generateCareerRecommendations] *)

(** [a || b] where [a] is a property read that did not throw. *)
Definition js_or (a : access) (b : json) : json :=
  match a with
  | Defined v => if truthy v then v else b
  | _ => b
  end.

(** [parsed.careers || parsed.recommendations || parsed]; [None] when
    [parsed] is [null] (the first property read throws). *)
Definition pick_recommendations (parsed : json) : option json :=
  match get parsed "careers" with
  | JS_throw => None
  | a_careers => Some (js_or a_careers (js_or (get parsed "recommendations") parsed))
  end.

(** The body of the [try] block after the call: [None] is an exception
    (no content, [JSON.parse] failure, property read on [null]). *)
Definition career_try_body (u : upstream) : option (list json) :=
  match u with
  | UTransportError | UNoContent | UNotJson => None
  | UJson parsed =>
      match pick_recommendations parsed with
      | None => None
      | Some recommendations =>
          match as_array recommendations with
          | None =>
              (* Object.values(recommendations).filter(Array.isArray)[0] || [] *)
              match first_array (object_values recommendations) with
              | Some a => Some a
              | None => Some []
              end
          | Some xs => Some xs
          end
      end
  end.

(** The [catch] branch returns the fallback list. *)
Definition generateCareerRecommendations (skills : list Skill) (u : upstream)
  : list json :=
  match career_try_body u with
  | Some xs => xs
  | None => map recommendation_to_json (getDefaultCareerRecommendations skills)
  end.

(* ================================================================== *)
(** ** [generateRoadmap] and [getDefaultRoadmap] *)

(** A row of [career_paths]. *)
Record CareerPath : Type := mkCareerPath {
  cp_id : nat;
  cp_userId : string;
  cp_title : string;
  cp_description : string;
  cp_matchPercentage : Z;
  cp_matchReasons : list string;
  cp_requiredSkills : list string;
  cp_salaryRange : option string;
  cp_demandLevel : option string;
  cp_isSelected : bool
}.

(** One element of [RoadmapData.steps]; [duration] is [None] when a
    model-generated step leaves it out. *)
Record RoadmapStepData : Type := mkStepData {
  sd_phase : string;
  sd_title : string;
  sd_description : string;
  sd_skills : list string;
  sd_duration : option string
}.

Record RoadmapData : Type := mkRoadmapData {
  rd_title : string;
  rd_description : string;
  rd_steps : list RoadmapStepData
}.

(** [Array.prototype.slice(start, end)] for [0 <= start]. *)
Definition slice {A : Type} (l : list A) (start end_ : nat) : list A :=
  firstn (end_ - start) (skipn start l).

Definition getDefaultRoadmap (careerPath : CareerPath) : RoadmapData := {|
  rd_title := String.append "Roadmap to " (cp_title careerPath);
  rd_description := String.append "A comprehensive learning path to become a "
    (String.append (cp_title careerPath)
       ". Follow these steps to build your skills progressively.");
  rd_steps := [
    mkStepData "Beginner" "Foundation Skills"
      "Build a strong foundation in the core concepts required for this career path."
      (slice (cp_requiredSkills careerPath) 0 2) (Some "2-3 weeks");
    mkStepData "Beginner" "Essential Tools"
      "Learn the essential tools and technologies used in the industry."
      ["Version Control"; "Development Environment"] (Some "1-2 weeks");
    mkStepData "Beginner" "Basic Projects"
      "Apply your knowledge by building small practice projects."
      ["Problem Solving"; "Project Structure"] (Some "2-3 weeks");
    mkStepData "Intermediate" "Advanced Concepts"
      "Dive deeper into advanced topics and best practices."
      (slice (cp_requiredSkills careerPath) 2 4) (Some "3-4 weeks");
    mkStepData "Intermediate" "Real-World Projects"
      "Build portfolio-worthy projects that demonstrate your skills."
      ["Project Management"; "Documentation"] (Some "4-6 weeks");
    mkStepData "Intermediate" "Collaboration Skills"
      "Learn to work effectively in teams and contribute to larger projects."
      ["Team Collaboration"; "Code Review"] (Some "2-3 weeks");
    mkStepData "Advanced" "Specialization"
      "Focus on a specific area within your career path to become an expert."
      (slice (cp_requiredSkills careerPath) 4 6) (Some "4-6 weeks");
    mkStepData "Advanced" "Industry Best Practices"
      "Learn industry standards and best practices for professional work."
      ["Architecture"; "Performance Optimization"] (Some "3-4 weeks");
    mkStepData "Advanced" "Career Preparation"
      "Prepare for job interviews and build your professional network."
      ["Interview Skills"; "Networking"] (Some "2-3 weeks")] |}.

(** [generateRoadmap]: the parsed content is returned as it is ([inl]),
    the [catch] branch returns the template ([inr]). *)
Definition generateRoadmap (careerPath : CareerPath) (currentSkills : list Skill)
    (u : upstream) : json + RoadmapData :=
  match u with
  | UJson v => inl v
  | UTransportError | UNoContent | UNotJson => inr (getDefaultRoadmap careerPath)
  end.

(* ================================================================== *)
(** ** [extractSkillsFromText] *)

(** [text.substring(0, 4000)] only enters the prompt; the result depends on
    the completion. [parsed.skills || []], and [[]] in the [catch]. *)
Definition extractSkillsFromText (text : string) (u : upstream) : json :=
  match u with
  | UTransportError | UNotJson => JArr []
  | UNoContent => JArr []
  | UJson parsed =>
      match get parsed "skills" with
      | JS_throw => JArr []
      | a => js_or a (JArr [])
      end
  end.

(* ================================================================== *)
(** ** The relational store ([DatabaseStorage] over [shared/schema.ts]) *)

(** A row of [roadmaps]. *)
Record Roadmap : Type := mkRoadmap {
  rm_id : nat;
  rm_userId : string;
  rm_careerPathId : option nat;
  rm_title : string;
  rm_description : option string;
  rm_createdAt : nat
}.

(** A row of [roadmap_steps]. [id] and [order_index] are [integer]
    columns a request may set to any value of the type, negative ones
    included; [is_completed] has a default but may hold [NULL] ([None]).
    [created_at] is left out: no request can change it (see
    [updateRoadmapStep]) and nothing below reads it. *)
Record RoadmapStep : Type := mkStep {
  st_id : Z;
  st_roadmapId : nat;
  st_phase : string;
  st_title : string;
  st_description : string;
  st_skills : list string;
  st_duration : option string;
  st_orderIndex : Z;
  st_isCompleted : option bool
}.

(** The tables the core touches, the [serial] sequences of three of them,
    and the clock behind [created_at]. A skill row is kept with its
    owner. The ids of [career_paths] and [roadmaps] are the ones their
    sequences hand out: no request sets them. A sequence advances when an
    insert draws from it: on success, and for [roadmap_steps] when a drawn
    id is already taken. An insert that Postgres rejects for a [NULL] in a
    [NOT NULL] column draws values too, which is not counted here: that
    only shifts the ids of later rows. Stored text never holds a NUL
    character (the server refuses it). *)
Record Store : Type := mkStore {
  users : list string;
  skills : list (string * Skill);
  careerPaths : list CareerPath;
  roadmaps : list Roadmap;
  roadmapSteps : list RoadmapStep;
  next_cp_id : nat;
  next_rm_id : nat;
  next_st_id : nat;
  now : nat
}.

Definition set_careerPaths (s : Store) (cps : list CareerPath) : Store :=
  mkStore (users s) (skills s) cps (roadmaps s) (roadmapSteps s)
    (next_cp_id s) (next_rm_id s) (next_st_id s) (now s).

Definition with_steps (s : Store) (steps : list RoadmapStep) : Store :=
  mkStore (users s) (skills s) (careerPaths s) (roadmaps s) steps
    (next_cp_id s) (next_rm_id s) (next_st_id s) (now s).

Definition with_selected (p : CareerPath) (b : bool) : CareerPath :=
  mkCareerPath (cp_id p) (cp_userId p) (cp_title p) (cp_description p)
    (cp_matchPercentage p) (cp_matchReasons p) (cp_requiredSkills p)
    (cp_salaryRange p) (cp_demandLevel p) b.

(** [getSkills(userId)] (the [ORDER BY created_at DESC] is the table's
    order here). *)
Definition getSkills (s : Store) (userId : string) : list Skill :=
  map snd (filter (fun us => String.eqb (fst us) userId) (skills s)).

Definition getUser (s : Store) (userId : string) : bool :=
  existsb (String.eqb userId) (users s).

(** [getCareerPath(id)]: [... WHERE id = $1 LIMIT 1]. *)
Definition getCareerPath (s : Store) (id : nat) : option CareerPath :=
  find (fun p => Nat.eqb (cp_id p) id) (careerPaths s).

(** The two [UPDATE]s of [selectCareerPath]: clear, then set. *)
Definition clearSelection (s : Store) (userId : string) : Store :=
  set_careerPaths s
    (map (fun p => if String.eqb (cp_userId p) userId then with_selected p false else p)
       (careerPaths s)).

Definition setSelection (s : Store) (careerPathId : nat) : Store :=
  set_careerPaths s
    (map (fun p => if Nat.eqb (cp_id p) careerPathId then with_selected p true else p)
       (careerPaths s)).

Definition selectCareerPath (s : Store) (userId : string) (careerPathId : nat) : Store :=
  setSelection (clearSelection s userId) careerPathId.

(** [DELETE FROM roadmaps WHERE user_id = $1], with the [ON DELETE CASCADE]
    of [roadmap_steps.roadmap_id]. *)
Definition deleteRoadmapsForUser (s : Store) (userId : string) : Store :=
  let gone := map rm_id (filter (fun r => String.eqb (rm_userId r) userId) (roadmaps s)) in
  mkStore (users s) (skills s) (careerPaths s)
    (filter (fun r => negb (String.eqb (rm_userId r) userId)) (roadmaps s))
    (filter (fun st => negb (existsb (Nat.eqb (st_roadmapId st)) gone)) (roadmapSteps s))
    (next_cp_id s) (next_rm_id s) (next_st_id s) (now s).

(** [DELETE FROM career_paths WHERE user_id = $1], with the cascades of
    [roadmaps.career_path_id] and then of [roadmap_steps.roadmap_id]. *)
Definition deleteAllCareerPathsForUser (s : Store) (userId : string) : Store :=
  let gone_cp := map cp_id (filter (fun p => String.eqb (cp_userId p) userId) (careerPaths s)) in
  let hit r := match rm_careerPathId r with
               | Some c => existsb (Nat.eqb c) gone_cp
               | None => false
               end in
  let gone_rm := map rm_id (filter hit (roadmaps s)) in
  mkStore (users s) (skills s)
    (filter (fun p => negb (String.eqb (cp_userId p) userId)) (careerPaths s))
    (filter (fun r => negb (hit r)) (roadmaps s))
    (filter (fun st => negb (existsb (Nat.eqb (st_roadmapId st)) gone_rm)) (roadmapSteps s))
    (next_cp_id s) (next_rm_id s) (next_st_id s) (now s).

(** A career-path insert value: every column but [id]. *)
Definition InsertCareerPath : Type := nat -> CareerPath.

(** [createManyCareerPaths]: one multi-row [INSERT], ids from the sequence. *)
Fixpoint number_from {A : Type} (start : nat) (l : list (nat -> A)) : list A :=
  match l with
  | [] => []
  | f :: l' => f start :: number_from (S start) l'
  end.

Definition createManyCareerPaths (s : Store) (rows : list InsertCareerPath) : Store :=
  match rows with
  | [] => s
  | _ =>
      mkStore (users s) (skills s) (careerPaths s ++ number_from (next_cp_id s) rows)
        (roadmaps s) (roadmapSteps s)
        (next_cp_id s + length rows) (next_rm_id s) (next_st_id s) (now s)
  end.

(** [createRoadmap]: the new row and its id. *)
Definition createRoadmap (s : Store) (userId : string) (careerPathId : option nat)
    (title : string) (description : option string) : nat * Store :=
  let id := next_rm_id s in
  (id, mkStore (users s) (skills s) (careerPaths s)
         (roadmaps s ++ [mkRoadmap id userId careerPathId title description (now s)])
         (roadmapSteps s)
         (next_cp_id s) (S id) (next_st_id s) (S (now s))).

(** A step insert value: every column but [id]. *)
Definition InsertRoadmapStep : Type := nat -> RoadmapStep.

(** [createManyRoadmapSteps]: nothing for an empty list, else one
    multi-row [INSERT] whose ids come from the sequence; [false] when the
    statement fails. A PATCH can set the [id] of a step, so a drawn id may
    already be taken: the statement then fails on the primary key at the
    first such row, after drawing the ids up to it. *)
Definition createManyRoadmapSteps (s : Store) (rows : list InsertRoadmapStep) : bool * Store :=
  match rows with
  | [] => (true, s)
  | _ =>
      let taken k := existsb (fun st => Z.eqb (st_id st) (Z.of_nat (next_st_id s + k)))
                       (roadmapSteps s) in
      match find taken (seq 0 (length rows)) with
      | Some k =>
          (false, mkStore (users s) (skills s) (careerPaths s) (roadmaps s) (roadmapSteps s)
                    (next_cp_id s) (next_rm_id s) (next_st_id s + S k) (now s))
      | None =>
          (true, mkStore (users s) (skills s) (careerPaths s) (roadmaps s)
                   (roadmapSteps s ++ number_from (next_st_id s) rows)
                   (next_cp_id s) (next_rm_id s) (next_st_id s + length rows) (now s))
      end
  end.

(** [getRoadmapSteps(roadmapId)]: [ORDER BY order_index], as a stable
    insertion sort. Postgres leaves the order of steps with equal
    [order_index] unspecified; the model keeps their table order. *)
Fixpoint insert_by_order (x : RoadmapStep) (l : list RoadmapStep) : list RoadmapStep :=
  match l with
  | [] => [x]
  | y :: l' => if Z.ltb (st_orderIndex x) (st_orderIndex y) then x :: l
               else y :: insert_by_order x l'
  end.

Definition sort_by_order (l : list RoadmapStep) : list RoadmapStep :=
  fold_left (fun acc x => insert_by_order x acc) l [].

Definition getRoadmapSteps (s : Store) (roadmapId : nat) : list RoadmapStep :=
  sort_by_order (filter (fun st => Nat.eqb (st_roadmapId st) roadmapId) (roadmapSteps s)).

(** [getRoadmap(userId)]: the newest roadmap of the user
    ([ORDER BY created_at DESC LIMIT 1]) with its steps. The [careerPath]
    field of the result is [getRoadmap_careerPath] below; no count depends
    on it. *)
Fixpoint newest (best : Roadmap) (l : list Roadmap) : Roadmap :=
  match l with
  | [] => best
  | r :: l' => newest (if Nat.ltb (rm_createdAt best) (rm_createdAt r) then r else best) l'
  end.

Definition getRoadmap (s : Store) (userId : string) : option (Roadmap * list RoadmapStep) :=
  match filter (fun r => String.eqb (rm_userId r) userId) (roadmaps s) with
  | [] => None
  | r :: rs => let best := newest r rs in Some (best, getRoadmapSteps s (rm_id best))
  end.

(** [if (roadmap.careerPathId) { [cp] = ... WHERE id = careerPathId LIMIT 1 }]
    ([0] is falsy). *)
Definition getRoadmap_careerPath (s : Store) (r : Roadmap) : option CareerPath :=
  match rm_careerPathId r with
  | Some c => if Nat.eqb c 0 then None else getCareerPath s c
  | None => None
  end.

(* ================================================================== *)
(** ** Values bound to statement parameters *)

(** [String.prototype.trim] and [parseInt] on a string of UTF-16 code
    units below 256: the white space there is [\t \n \v \f \r], space and
    no-break space. *)
Definition js_space (c : ascii) : bool :=
  let n := nat_of_ascii c in
  ((9 <=? n) && (n <=? 13))%nat || (n =? 32)%nat || (n =? 160)%nat.

Fixpoint trim_start (s : string) : string :=
  match s with
  | EmptyString => EmptyString
  | String c s' => if js_space c then trim_start s' else s
  end.

Fixpoint trim_end (s : string) : string :=
  match s with
  | EmptyString => EmptyString
  | String c s' =>
      match trim_end s' with
      | EmptyString => if js_space c then EmptyString else String c EmptyString
      | r => String c r
      end
  end.

Definition js_trim (s : string) : string := trim_end (trim_start s).

Open Scope Z_scope.

(** [Number.prototype.toString] of an integer: its decimal notation. *)
Fixpoint pos_digits (fuel : nat) (n : Z) (acc : string) : string :=
  match fuel with
  | O => acc
  | S fuel' =>
      let acc' := String (ascii_of_nat (48 + Z.to_nat (n mod 10))%nat) acc in
      if (n <? 10)%Z then acc' else pos_digits fuel' (n / 10)%Z acc'
  end.

Definition z_to_decimal (n : Z) : string :=
  let digits := pos_digits (S (Z.to_nat (Z.log2 (Z.abs n)))) (Z.abs n) EmptyString in
  if (n <? 0)%Z then String "-"%char digits else digits.

Definition quote_char : ascii := ascii_of_nat 34.
Definition backslash : ascii := ascii_of_nat 92.

Definition hex_digit (n : nat) : ascii :=
  if (n <? 10)%nat then ascii_of_nat (48 + n)%nat else ascii_of_nat (87 + n)%nat.

(** The escapes of [JSON.stringify] in a string literal. *)
Fixpoint json_escape (s : string) : string :=
  match s with
  | EmptyString => EmptyString
  | String c s' =>
      let n := nat_of_ascii c in
      let rest := json_escape s' in
      if (n =? 34)%nat then String backslash (String quote_char rest)
      else if (n =? 92)%nat then String backslash (String backslash rest)
      else if (n =? 8)%nat then String backslash (String "b"%char rest)
      else if (n =? 9)%nat then String backslash (String "t"%char rest)
      else if (n =? 10)%nat then String backslash (String "n"%char rest)
      else if (n =? 12)%nat then String backslash (String "f"%char rest)
      else if (n =? 13)%nat then String backslash (String "r"%char rest)
      else if (n <? 32)%nat then
        String backslash (String "u"%char (String "0"%char (String "0"%char
          (String (hex_digit (n / 16)%nat) (String (hex_digit (n mod 16)%nat) rest)))))
      else String c rest
  end.

Definition json_quote (s : string) : string :=
  String quote_char (String.append (json_escape s) (String quote_char EmptyString)).

(** [JSON.stringify]. *)
Fixpoint json_stringify (v : json) : string :=
  match v with
  | JNull => "null"
  | JBool b => if b then "true" else "false"
  | JNum n => z_to_decimal n
  | JStr s => json_quote s
  | JArr xs =>
      let fix items (first : bool) (l : list json) : string :=
        match l with
        | [] => "]"
        | x :: l' =>
            String.append (if first then "" else ",")
              (String.append (json_stringify x) (items false l'))
        end in
      String "["%char (items true xs)
  | JObj fs =>
      let fix fields (first : bool) (l : list (string * json)) : string :=
        match l with
        | [] => "}"
        | (k, x) :: l' =>
            String.append (if first then "" else ",")
              (String.append (json_quote k)
                 (String ":"%char (String.append (json_stringify x) (fields false l'))))
        end in
      String "{"%char (fields true fs)
  end.

(** [escapeElement] of node-postgres: quote, escaping [\] and the quote. *)
Fixpoint escape_element_chars (s : string) : string :=
  match s with
  | EmptyString => String quote_char EmptyString
  | String c s' =>
      if Ascii.eqb c backslash || Ascii.eqb c quote_char
      then String backslash (String c (escape_element_chars s'))
      else String c (escape_element_chars s')
  end.

Definition escape_element (s : string) : string := String quote_char (escape_element_chars s).

(** [prepareValue] of node-postgres, for a non-null value: a string as it
    is, a number or a boolean by [toString], an array by [arrayString]
    ([NULL] for a null element, nested arrays recursively, other elements
    quoted), an object by [JSON.stringify]. *)
Fixpoint prepare_value (v : json) : string :=
  match v with
  | JNull => "null"
  | JBool b => if b then "true" else "false"
  | JNum n => z_to_decimal n
  | JStr s => s
  | JArr xs =>
      let fix elems (first : bool) (l : list json) : string :=
        match l with
        | [] => "}"
        | x :: l' =>
            String.append (if first then "" else ",")
              (String.append
                 (match x with
                  | JNull => "NULL"
                  | JArr _ => prepare_value x
                  | _ => escape_element (prepare_value x)
                  end)
                 (elems false l'))
        end in
      String "{"%char (elems true xs)
  | JObj _ => json_stringify v
  end.

Fixpoint has_nul (s : string) : bool :=
  match s with
  | EmptyString => false
  | String c s' => Nat.eqb (nat_of_ascii c) 0 || has_nul s'
  end.

(** The text a non-null value is bound as; [None] when the server refuses
    it (a NUL character). *)
Definition param_text (v : json) : option string :=
  let t := prepare_value v in if has_nul t then None else Some t.

(** A string or key with a NUL character: [jsonb] refuses its escape. *)
Fixpoint json_has_nul (v : json) : bool :=
  match v with
  | JStr s => has_nul s
  | JArr xs =>
      let fix any (l : list json) : bool :=
        match l with [] => false | x :: l' => json_has_nul x || any l' end in
      any xs
  | JObj fs =>
      let fix any (l : list (string * json)) : bool :=
        match l with [] => false | (k, x) :: l' => has_nul k || json_has_nul x || any l' end in
      any fs
  | _ => false
  end.

(** [int4in] (PostgreSQL 16): C white space around, an optional sign, an
    optional [0x], [0o] or [0b] prefix, digits with single [_] separators
    (not before the first digit of a decimal number), at least one digit,
    and a value in [[-2^31, 2^31)]. *)
Definition c_space (c : ascii) : bool :=
  let n := nat_of_ascii c in (n =? 32)%nat || ((9 <=? n) && (n <=? 13))%nat.

Fixpoint skip_c_space (s : string) : string :=
  match s with
  | String c s' => if c_space c then skip_c_space s' else s
  | EmptyString => EmptyString
  end.

Fixpoint all_c_space (s : string) : bool :=
  match s with
  | String c s' => c_space c && all_c_space s'
  | EmptyString => true
  end.

Definition digit_value (base : Z) (c : ascii) : option Z :=
  let n := Z.of_nat (nat_of_ascii c) in
  let d := if (48 <=? n) && (n <=? 57) then n - 48
           else if (97 <=? n) && (n <=? 102) then n - 87
           else if (65 <=? n) && (n <=? 70) then n - 55
           else 99 in
  if d <? base then Some d else None.

(** The digits of [base] from the start of [s]: the value, whether a digit
    was read, and the rest; [None] for a misplaced [_]. *)
Fixpoint read_pg_digits (base : Z) (us_ok : bool) (acc : Z) (any : bool) (s : string)
  : option (Z * bool * string) :=
  match s with
  | EmptyString => Some (acc, any, s)
  | String c s' =>
      match digit_value base c with
      | Some d => read_pg_digits base true (acc * base + d) true s'
      | None =>
          if Ascii.eqb c "_"%char then
            if negb us_ok then None else
            match s' with
            | String c2 _ =>
                match digit_value base c2 with
                | Some _ => read_pg_digits base true acc any s'
                | None => None
                end
            | EmptyString => None
            end
          else Some (acc, any, s)
      end
  end.

Definition int4_range (z : Z) : bool := (-2147483648 <=? z) && (z <? 2147483648).

Definition int4_in (t : string) : option Z :=
  let s0 := skip_c_space t in
  let '(neg, s1) := match s0 with
                    | String c s' =>
                        if Ascii.eqb c "-"%char then (true, s')
                        else if Ascii.eqb c "+"%char then (false, s')
                        else (false, s0)
                    | EmptyString => (false, s0)
                    end in
  let '(base, us_ok, s2) :=
    match s1 with
    | String c0 (String c s') =>
        if Ascii.eqb c0 "0"%char then
          let n := nat_of_ascii c in
          if (n =? 120)%nat || (n =? 88)%nat then (16, true, s')
          else if (n =? 111)%nat || (n =? 79)%nat then (8, true, s')
          else if (n =? 98)%nat || (n =? 66)%nat then (2, true, s')
          else (10, false, s1)
        else (10, false, s1)
    | _ => (10, false, s1)
    end in
  match read_pg_digits base us_ok 0 false s2 with
  | Some (v, true, rest) =>
      if all_c_space rest then
        let z := if neg then - v else v in
        if int4_range z then Some z else None
      else None
  | _ => None
  end.

(** [boolin]: after trimming white space, case-insensitively, a non-empty
    prefix of [true], [yes], [false] or [no], or [on], [of], [off], [1],
    [0]. *)
Fixpoint trim_end_c (s : string) : string :=
  match s with
  | EmptyString => EmptyString
  | String c s' => if all_c_space s then EmptyString else String c (trim_end_c s')
  end.

Definition bool_in (t : string) : option bool :=
  let v := toLowerCase (trim_end_c (skip_c_space t)) in
  if String.eqb v "" then None
  else if String.prefix v "true" || String.prefix v "yes" then Some true
  else if String.prefix v "false" || String.prefix v "no" then Some false
  else if String.eqb v "on" || String.eqb v "1" then Some true
  else if String.eqb v "of" || String.eqb v "off" || String.eqb v "0" then Some false
  else None.

Close Scope Z_scope.

Definition bind_opt {A B : Type} (m : option A) (k : A -> option B) : option B :=
  match m with Some x => k x | None => None end.

Notation "'let*' x := m 'in' k" := (bind_opt m (fun x => k))
  (at level 200, x name, m at level 100, k at level 200).

Fixpoint traverse_opt {A B : Type} (f : A -> option B) (l : list A) : option (list B) :=
  match l with
  | [] => Some []
  | x :: l' => let* y := f x in let* ys := traverse_opt f l' in Some (y :: ys)
  end.

(** An element of a [text[]] value as [makePgArray] of drizzle writes it
    and Postgres reads it back: a string as it is, a number or a boolean
    by [toString], an object as [[object Object]]. A [null] element is read
    as a [NULL] element and a nested array as a second dimension; the rows
    here ([list string]) hold neither, so those values are outside the
    model and counted with the failures ([None]), as is a NUL character,
    which the server refuses. *)
Definition array_element (v : json) : option string :=
  match v with
  | JStr s => if has_nul s then None else Some s
  | JNum n => Some (z_to_decimal n)
  | JBool b => Some (if b then "true" else "false")
  | JObj _ => Some "[object Object]"
  | JNull | JArr _ => None
  end.

(** [PgArray.mapToDriverValue]: [value.map(...)], a [TypeError] for a
    value other than an array. *)
Definition bind_text_array (v : json) : option (list string) :=
  match v with
  | JArr xs => traverse_opt array_element xs
  | _ => None
  end.

(** [parseInt(s)] (radix 10, or 16 after a [0x] prefix): [None] is [NaN]. *)
Fixpoint read_radix_digits (base acc : Z) (any : bool) (s : string) : option Z :=
  match s with
  | String c s' =>
      match digit_value base c with
      | Some d => read_radix_digits base (acc * base + d)%Z true s'
      | None => if any then Some acc else None
      end
  | EmptyString => if any then Some acc else None
  end.

Definition js_parseInt (str : string) : option Z :=
  let s0 := trim_start str in
  let '(neg, s1) := match s0 with
                    | String c s' =>
                        if Ascii.eqb c "-"%char then (true, s')
                        else if Ascii.eqb c "+"%char then (false, s')
                        else (false, s0)
                    | EmptyString => (false, s0)
                    end in
  let '(base, s2) := match s1 with
                     | String c0 (String c s') =>
                         if Ascii.eqb c0 "0"%char && (Ascii.eqb c "x"%char || Ascii.eqb c "X"%char)
                         then (16%Z, s') else (10%Z, s1)
                     | _ => (10%Z, s1)
                     end in
  match read_radix_digits base 0 false s2 with
  | Some v => Some (if neg then (- v)%Z else v)
  | None => None
  end.

(** A value bound for a [NOT NULL] text column: [null], and [undefined]
    (the column's default, here none), give [NULL], which the column
    refuses. *)
Definition text_col (a : access) : option string :=
  match a with
  | Defined JNull | Undefined | JS_throw => None
  | Defined v => param_text v
  end.

(** A value bound for a nullable text column ([undefined] binds [NULL]). *)
Definition nullable_text_col (a : access) : option (option string) :=
  match a with
  | Defined JNull | Undefined => Some None
  | JS_throw => None
  | Defined v => option_map Some (param_text v)
  end.

Definition text_array_col (a : access) : option (list string) :=
  match a with
  | Defined JNull | Undefined | JS_throw => None
  | Defined v => bind_text_array v
  end.

(** A value bound for a [NOT NULL] [integer] column: its text must be read
    by [int4in]. *)
Definition integer_col (a : access) : option Z :=
  match a with
  | Defined JNull | Undefined | JS_throw => None
  | Defined v => let* t := param_text v in int4_in t
  end.

(* ================================================================== *)
(** ** Route handlers ([server/routes.ts]) *)

Inductive response : Type := Ok200 | Err400 | Err404 | Err500.

(** [recommendations.map(rec => ({ userId, title: rec.title, ...,
    isSelected: false }))] followed by the binding of the values and the
    column checks of the [INSERT]; [None] when [rec] is [null] or a value
    is refused. *)
Definition career_insert_of_json (userId : string) (rec : json) : option InsertCareerPath :=
  match rec with
  | JNull => None
  | _ =>
      let* title := text_col (get rec "title") in
      let* description := text_col (get rec "description") in
      let* matchPercentage := integer_col (get rec "matchPercentage") in
      let* matchReasons := text_array_col (get rec "matchReasons") in
      let* requiredSkills := text_array_col (get rec "requiredSkills") in
      let* salaryRange := nullable_text_col (get rec "salaryRange") in
      let* demandLevel := nullable_text_col (get rec "demandLevel") in
      Some (fun id => mkCareerPath id userId title description matchPercentage
                        matchReasons requiredSkills salaryRange demandLevel false)
  end.

(** [POST /api/career-paths/generate]. *)
Definition generate_route (s : Store) (userId : string) (u : upstream) : response * Store :=
  match getSkills s userId with
  | [] => (Err400, s)
  | sk =>
      if negb (getUser s userId) then (Err404, s) else
      let s1 := deleteAllCareerPathsForUser s userId in
      let recommendations := generateCareerRecommendations sk u in
      match traverse_opt (career_insert_of_json userId) recommendations with
      | None => (Err500, s1)
      | Some rows => (Ok200, createManyCareerPaths s1 rows)
      end
  end.

(** [roadmapData.title] and [roadmapData.description] as bound by
    [createRoadmap]. The template's strings come from the stored career
    path and hold no NUL character. *)
Definition roadmap_header (rd : json + RoadmapData) : option (string * option string) :=
  match rd with
  | inr d => Some (rd_title d, Some (rd_description d))
  | inl JNull => None
  | inl v =>
      let* t := text_col (get v "title") in
      let* d := nullable_text_col (get v "description") in
      Some (t, d)
  end.

Definition step_data_of_json (j : json) : option RoadmapStepData :=
  match j with
  | JNull => None
  | _ =>
      let* phase := text_col (get j "phase") in
      let* title := text_col (get j "title") in
      let* description := text_col (get j "description") in
      let* sks := text_array_col (get j "skills") in
      let* duration := nullable_text_col (get j "duration") in
      Some (mkStepData phase title description sks duration)
  end.

(** [roadmapData.steps.map((step, index) => ({ roadmapId, ...,
    orderIndex: index, isCompleted: false }))]. *)
Fixpoint step_rows (roadmapId index : nat) (l : list RoadmapStepData) : list InsertRoadmapStep :=
  match l with
  | [] => []
  | sd :: l' =>
      (fun id => mkStep (Z.of_nat id) roadmapId (sd_phase sd) (sd_title sd) (sd_description sd)
                   (sd_skills sd) (sd_duration sd) (Z.of_nat index) (Some false))
      :: step_rows roadmapId (S index) l'
  end.

(** [roadmapData.steps.map(...)]: a [TypeError] unless [steps] is an
    array. *)
Definition roadmap_steps_of (rd : json + RoadmapData) : option (list RoadmapStepData) :=
  match rd with
  | inr d => Some (rd_steps d)
  | inl v =>
      match get v "steps" with
      | Defined (JArr xs) => traverse_opt step_data_of_json xs
      | _ => None
      end
  end.

(** [POST /api/career-paths/:id/select] past [parseInt], for an id that
    an [integer] parameter holds and that is not negative (see
    [select_request]). *)
Definition select_route (s : Store) (userId : string) (id : nat) (u : upstream)
  : response * Store :=
  match getCareerPath s id with
  | None => (Err404, s)
  | Some careerPath =>
      if negb (String.eqb (cp_userId careerPath) userId) then (Err404, s) else
      let s1 := selectCareerPath s userId id in
      let sk := getSkills s1 userId in
      let roadmapData := generateRoadmap careerPath sk u in
      let s2 := deleteRoadmapsForUser s1 userId in
      match roadmap_header roadmapData with
      | None => (Err500, s2)
      | Some (title, description) =>
          let (rid, s3) := createRoadmap s2 userId (Some id) title description in
          match roadmap_steps_of roadmapData with
          | None => (Err500, s3)
          | Some steps =>
              let (ok, s4) := createManyRoadmapSteps s3 (step_rows rid 0 steps) in
              (if ok then Ok200 else Err500, s4)
          end
      end
  end.

(** The whole request: [parseInt(req.params.id)] is bound as an [integer]
    parameter of [getCareerPath], so [NaN] and values out of range fail
    there ([500]); a negative id finds no path (ids come from a [serial]
    sequence). *)
Definition select_request (s : Store) (userId param : string) (u : upstream)
  : response * Store :=
  match js_parseInt param with
  | None => (Err500, s)
  | Some z =>
      if negb (int4_range z) then (Err500, s)
      else if (z <? 0)%Z then (Err404, s)
      else select_route s userId (Z.to_nat z) u
  end.

(** [Partial<InsertRoadmapStep>] at run time: [req.body] as it is, of
    which [set] keeps the keys that name a column of [roadmap_steps]. *)
Record StepPatch : Type := mkPatch {
  pa_id : option json;
  pa_roadmapId : option json;
  pa_phase : option json;
  pa_title : option json;
  pa_description : option json;
  pa_skills : option json;
  pa_duration : option json;
  pa_orderIndex : option json;
  pa_isCompleted : option json;
  pa_createdAt : option json
}.

Definition patch_of_body (body : list (string * json)) : StepPatch :=
  mkPatch (assoc "id" body) (assoc "roadmapId" body) (assoc "phase" body)
    (assoc "title" body) (assoc "description" body) (assoc "skills" body)
    (assoc "duration" body) (assoc "orderIndex" body) (assoc "isCompleted" body)
    (assoc "createdAt" body).

Definition patch_columns (d : StepPatch) : list (option json) :=
  [pa_id d; pa_roadmapId d; pa_phase d; pa_title d; pa_description d; pa_skills d;
   pa_duration d; pa_orderIndex d; pa_isCompleted d; pa_createdAt d].

(** The values bound for the [SET] list: per column, absent ([None]), set
    to [NULL] ([Some None]) or set to a value. *)
Record StepSet : Type := mkSet {
  set_id : option (option Z);
  set_roadmapId : option (option Z);
  set_phase : option (option string);
  set_title : option (option string);
  set_description : option (option string);
  set_skills : option (option (list string));
  set_duration : option (option string);
  set_orderIndex : option (option Z);
  set_isCompleted : option (option bool);
  set_createdAt : option (option unit)
}.

Definition bind_entry {A : Type} (conv : json -> option A) (o : option json)
  : option (option (option A)) :=
  match o with
  | None => Some None
  | Some JNull => Some (Some None)
  | Some v => option_map (fun a => Some (Some a)) (conv v)
  end.

Definition int4_value (v : json) : option Z := let* t := param_text v in int4_in t.

Definition bool_value (v : json) : option bool := let* t := param_text v in bool_in t.

(** Binding the [SET] values: a [timestamp] value goes through
    [toISOString], which a parsed JSON value does not have. *)
Definition bind_patch (d : StepPatch) : option StepSet :=
  let* i := bind_entry int4_value (pa_id d) in
  let* r := bind_entry int4_value (pa_roadmapId d) in
  let* ph := bind_entry param_text (pa_phase d) in
  let* t := bind_entry param_text (pa_title d) in
  let* de := bind_entry param_text (pa_description d) in
  let* sk := bind_entry bind_text_array (pa_skills d) in
  let* du := bind_entry param_text (pa_duration d) in
  let* o := bind_entry int4_value (pa_orderIndex d) in
  let* c := bind_entry bool_value (pa_isCompleted d) in
  let* ca := bind_entry (fun _ => None) (pa_createdAt d) in
  Some (mkSet i r ph t de sk du o c ca).

Definition set_not_null {A : Type} (o : option (option A)) (old : A) : option A :=
  match o with
  | None => Some old
  | Some None => None
  | Some (Some v) => Some v
  end.

Definition set_nullable {A : Type} (o : option (option A)) (old : option A) : option A :=
  match o with
  | None => old
  | Some v => v
  end.

(** The new version of a matched row: [NOT NULL] checks, then the foreign
    key of [roadmap_id], checked when its value changes. *)
Definition update_row (s : Store) (d : StepSet) (st : RoadmapStep) : option RoadmapStep :=
  let* id := set_not_null (set_id d) (st_id st) in
  let* rid := set_not_null (set_roadmapId d) (Z.of_nat (st_roadmapId st)) in
  let* phase := set_not_null (set_phase d) (st_phase st) in
  let* title := set_not_null (set_title d) (st_title st) in
  let* description := set_not_null (set_description d) (st_description st) in
  let* sks := set_not_null (set_skills d) (st_skills st) in
  let duration := set_nullable (set_duration d) (st_duration st) in
  let* orderIndex := set_not_null (set_orderIndex d) (st_orderIndex st) in
  let isCompleted := set_nullable (set_isCompleted d) (st_isCompleted st) in
  let* _ := set_not_null (set_createdAt d) tt in
  let* roadmapId :=
    if Z.eqb rid (Z.of_nat (st_roadmapId st)) then Some (st_roadmapId st)
    else if existsb (fun r => Z.eqb (Z.of_nat (rm_id r)) rid) (roadmaps s)
    then Some (Z.to_nat rid) else None in
  Some (mkStep id roadmapId phase title description sks duration orderIndex isCompleted).

Fixpoint ids_unique (l : list RoadmapStep) : bool :=
  match l with
  | [] => true
  | st :: l' => negb (existsb (fun o => Z.eqb (st_id o) (st_id st)) l') && ids_unique l'
  end.

(** [updateRoadmapStep(id, data)]: [UPDATE ... SET data WHERE id = $1
    RETURNING], taking the first returned row; [None] when the statement
    fails (a column check, the foreign key, or the primary key of the
    updated table). *)
Definition updateRoadmapStep (s : Store) (id : Z) (d : StepSet)
  : option (option RoadmapStep * Store) :=
  let hit st := Z.eqb (st_id st) id in
  match find hit (roadmapSteps s) with
  | None => Some (None, s)
  | Some st0 =>
      let* first := update_row s d st0 in
      let* steps' := traverse_opt (fun st => if hit st then update_row s d st else Some st)
                       (roadmapSteps s) in
      if ids_unique steps' then Some (Some first, with_steps s steps') else None
  end.

(** [PATCH /api/roadmap-steps/:id]: [req.body] goes to [updateRoadmapStep]
    as it is. [set] throws ["No values to set"] for a body without keys and
    the statement has an empty [SET] list when no key names a column;
    [parseInt] gives [NaN] or a number out of range of the [integer]
    parameter; all of these end in the [catch] ([500]). *)
Definition patch_step_route (s : Store) (param : string) (body : StepPatch) : response * Store :=
  if forallb (fun o => match o with None => true | Some _ => false end) (patch_columns body)
  then (Err500, s) else
  match bind_patch body with
  | None => (Err500, s)
  | Some d =>
      match js_parseInt param with
      | None => (Err500, s)
      | Some id =>
          if negb (int4_range id) then (Err500, s) else
          match updateRoadmapStep s id d with
          | None => (Err500, s)
          | Some (None, s') => (Err404, s')
          | Some (Some _, s') => (Ok200, s')
          end
      end
  end.

Record DashboardStats : Type := mkStats {
  completedSteps : nat;
  totalSteps : nat
}.

(** [s.isCompleted] as a condition: [NULL] is falsy. *)
Definition is_completed (st : RoadmapStep) : bool :=
  match st_isCompleted st with Some b => b | None => false end.

(** [GET /api/dashboard/stats]: the step counts of the response. *)
Definition dashboard_stats (s : Store) (userId : string) : response * DashboardStats :=
  let roadmapSteps := match getRoadmap s userId with
                      | Some (_, steps) => steps
                      | None => []
                      end in
  (Ok200, mkStats (length (filter is_completed roadmapSteps)) (length roadmapSteps)).

(* ================================================================== *)
(** ** [POST /api/skills/extract] *)

(** What [upload.single("resume")] and [pdf(req.file.buffer)] give the
    handler: no file, a file [pdf] rejects, or the original file name and
    the extracted text. *)
Inductive upload : Type :=
| NoFile
| PdfUnreadable
| PdfParsed (originalname : string) (text : string).

(** A row of [skillsToCreate] as bound by [createManySkills]: the values
    are the model's, as they are (the casts only exist for the compiler). *)
Record SkillInsert : Type := mkSkillInsert {
  si_userId : string;
  si_name : json;
  si_category : json;
  si_proficiency : json
}.

(** The [createResume] value. *)
Record ResumeInsert : Type := mkResumeInsert {
  re_userId : string;
  re_filename : string;
  re_extractedSkills : json
}.

(** A value bound for a [NOT NULL] text column that any non-null value
    fills ([undefined] binds [NULL]), unless the server refuses its text. *)
Definition not_null_col (a : access) : option json :=
  match a with
  | Defined JNull | Undefined | JS_throw => None
  | Defined v => match param_text v with Some _ => Some v | None => None end
  end.

(** [({ userId, name: skill.name, category: skill.category,
    proficiency: skill.proficiency })] and the column checks of the
    [INSERT]; [None] when [skill] is [null] or a column gets no value. *)
Definition skill_insert_of_json (userId : string) (skill : json) : option SkillInsert :=
  match skill with
  | JNull => None
  | _ =>
      let* name := not_null_col (get skill "name") in
      let* category := not_null_col (get skill "category") in
      let* proficiency := not_null_col (get skill "proficiency") in
      Some (mkSkillInsert userId name category proficiency)
  end.

(** [v.length === 0]. *)
Definition js_length_is_zero (v : json) : bool :=
  match v with
  | JArr [] => true
  | JStr s => String.eqb s ""
  | JObj fs => match assoc "length" fs with Some (JNum n) => Z.eqb n 0 | _ => false end
  | _ => false
  end.

(** [POST /api/skills/extract]: the response, the rows inserted into
    [skills] and the row inserted into [resumes]. The multi-row [INSERT]
    is one statement: a failing row writes nothing. A value other than an
    array has no [map], which throws. [createResume] runs after the skills
    are written; its [text] file name and its [jsonb] copy of the array
    refuse a NUL character. *)
Definition extract_route (userId : string) (file : upload) (u : upstream)
  : response * list SkillInsert * option ResumeInsert :=
  match file with
  | NoFile => (Err400, [], None)
  | PdfUnreadable => (Err400, [], None)
  | PdfParsed originalname text =>
      if String.eqb text "" || Nat.ltb (String.length (js_trim text)) 50
      then (Err400, [], None) else
      let extractedSkills := extractSkillsFromText text u in
      if js_length_is_zero extractedSkills then (Err400, [], None) else
      match as_array extractedSkills with
      | None => (Err500, [], None)
      | Some xs =>
          match traverse_opt (skill_insert_of_json userId) xs with
          | None => (Err500, [], None)
          | Some rows =>
              if has_nul originalname || json_has_nul extractedSkills
              then (Err500, rows, None)
              else (Ok200, rows, Some (mkResumeInsert userId originalname extractedSkills))
          end
      end
  end.

(* ================================================================== *)
(** ** Invariants of the store *)

(** The primary key of [career_paths] and its [serial] sequence. *)
Definition cp_ids_wf (s : Store) : Prop :=
  NoDup (map cp_id (careerPaths s)) /\
  (forall p, In p (careerPaths s) -> cp_id p < next_cp_id s).

(** A roadmap generated from a career path that [userId] owns: deleting
    the user's career paths deletes it through [ON DELETE CASCADE]. *)
Definition tied_to_paths_of (s : Store) (userId : string) (r : Roadmap) : Prop :=
  exists p, In p (careerPaths s) /\ cp_userId p = userId /\ rm_careerPathId r = Some (cp_id p).

(** The career-path row the generate request inserts for a recommendation
    object of the fallback list. *)
Definition career_row (userId : string) (r : CareerRecommendation) : InsertCareerPath :=
  fun id => mkCareerPath id userId (rec_title r) (rec_description r) (rec_matchPercentage r)
              (rec_matchReasons r) (rec_requiredSkills r)
              (Some (rec_salaryRange r)) (Some (rec_demandLevel r)) false.

(* ================================================================== *)
(** * Properties *)

(** ** Strings *)

Lemma prefix_append : forall sub s,
  String.prefix sub s = true <-> exists post, s = String.append sub post.
Proof.
  induction sub as [|a sub IH]; intros s; simpl.
  - split; [intros _; exists s; reflexivity | destruct s; reflexivity].
  - destruct s as [|b s].
    + split; [discriminate | intros [post H]; discriminate H].
    + simpl. destruct (ascii_dec a b) as [<-|Hne].
      * rewrite IH. split; intros [post H]; exists post;
          [subst; reflexivity | injection H; auto].
      * split; [discriminate | intros [post H]; injection H; intros; congruence].
Qed.

Lemma includes_spec : forall s sub,
  includes s sub = true <->
  exists pre post, s = String.append pre (String.append sub post).
Proof.
  induction s as [|c s IH]; intros sub; cbn [includes]; rewrite orb_true_iff, prefix_append.
  - split.
    + intros [[post H]|H]; [exists EmptyString, post; exact H | discriminate H].
    + intros [pre [post H]]. left. destruct pre as [|? ?]; [exists post; exact H|].
      discriminate H.
  - rewrite IH. split.
    + intros [[post H]|[pre [post H]]].
      * exists EmptyString, post. exact H.
      * exists (String c pre), post. simpl. rewrite H. reflexivity.
    + intros [pre [post H]]. destruct pre as [|c' pre].
      * left. exists post. exact H.
      * right. exists pre, post. simpl in H. injection H. auto.
Qed.

Lemma matches_family_spec : forall fam s,
  matches_family fam s = true <->
  exists tech pre post, In tech fam /\
    toLowerCase (skill_name s) = String.append pre (String.append tech post).
Proof.
  intros fam s. unfold matches_family. rewrite existsb_exists. split.
  - intros [tech [Hin Hinc]]. apply includes_spec in Hinc.
    destruct Hinc as [pre [post H]]. exists tech, pre, post. auto.
  - intros [tech [pre [post [Hin H]]]]. exists tech. split; [exact Hin|].
    apply includes_spec. exists pre, post. exact H.
Qed.

(** ** The fallback classifier *)

(** Some skill of the list has a lowercased name containing a keyword of
    the family. *)
Definition family_hit (fam : list string) (skills : list Skill) : Prop :=
  exists s tech, In s skills /\ In tech fam /\
    includes (toLowerCase (skill_name s)) tech = true.

Lemma family_hit_existsb : forall fam skills,
  existsb (matches_family fam) skills = true <-> family_hit fam skills.
Proof.
  intros fam skills. unfold family_hit. rewrite existsb_exists. split.
  - intros [s [Hs Hm]]. unfold matches_family in Hm. apply existsb_exists in Hm.
    destruct Hm as [tech [Ht Hi]]. exists s, tech. auto.
  - intros [s [tech [Hs [Ht Hi]]]]. exists s. split; [exact Hs|].
    apply existsb_exists. exists tech. auto.
Qed.

Lemma family_hit_false : forall fam skills,
  ~ family_hit fam skills <-> existsb (matches_family fam) skills = false.
Proof.
  intros fam skills. rewrite <- family_hit_existsb.
  destruct (existsb (matches_family fam) skills); split; intros H; try tauto;
    try discriminate; exfalso; apply H; reflexivity.
Qed.

Lemma getDefaultCareerRecommendations_not_empty : forall skills,
  getDefaultCareerRecommendations skills <> [].
Proof.
  intros skills. unfold getDefaultCareerRecommendations.
  destruct (existsb (matches_family web_keywords) skills),
           (existsb (matches_family data_keywords) skills); discriminate.
Qed.

Ltac fam_cases :=
  repeat match goal with
  | H : family_hit _ _ |- _ => apply family_hit_existsb in H
  | H : ~ family_hit _ _ |- _ => apply family_hit_false in H
  end.

Lemma get_throw : forall v k, get v k = JS_throw -> v = JNull.
Proof.
  intros v k H. destruct v; simpl in H; try discriminate H; [reflexivity|].
  destruct (assoc k fields); discriminate H.
Qed.

Lemma first_array_string_chars : forall s, first_array (string_chars s) = None.
Proof. induction s as [|c s IH]; simpl; [reflexivity | exact IH]. Qed.

Lemma js_or_falsy : forall a b, truthy_access a = false -> js_or a b = b.
Proof. intros [v| |] b H; unfold js_or; simpl in H; try rewrite H; reflexivity. Qed.

Lemma generate_parsed : forall skills v x,
  pick_recommendations v = Some x ->
  generateCareerRecommendations skills (UJson v)
  = match x with
    | JArr xs => xs
    | _ => match first_array (object_values x) with Some a => a | None => [] end
    end.
Proof.
  intros skills v x H. unfold generateCareerRecommendations, career_try_body. rewrite H.
  destruct x; simpl; try reflexivity; destruct (first_array _); reflexivity.
Qed.

(** ** C2: the fallback list of [generateCareerRecommendations] *)

(** C2. The keyword fallback is exactly: a "Full-Stack Developer" entry at 85
    when some skill name matches a web keyword, a "Data Analyst" entry at 80
    when some skill name matches a data keyword, and the single "Software
    Developer" entry at 70 when neither family matches; for the one skill
    "React" and a failing upstream call, the result is the single
    Full-Stack Developer entry. *)
Theorem default_career_recommendations_exact : forall skills,
  (family_hit web_keywords skills -> ~ family_hit data_keywords skills ->
     getDefaultCareerRecommendations skills = [full_stack_rec]) /\
  (~ family_hit web_keywords skills -> family_hit data_keywords skills ->
     getDefaultCareerRecommendations skills = [data_analyst_rec]) /\
  (family_hit web_keywords skills -> family_hit data_keywords skills ->
     getDefaultCareerRecommendations skills = [full_stack_rec; data_analyst_rec]) /\
  (~ family_hit web_keywords skills -> ~ family_hit data_keywords skills ->
     getDefaultCareerRecommendations skills = [software_dev_rec]) /\
  (rec_title full_stack_rec = "Full-Stack Developer" /\ rec_matchPercentage full_stack_rec = 85%Z) /\
  (rec_title data_analyst_rec = "Data Analyst" /\ rec_matchPercentage data_analyst_rec = 80%Z) /\
  (rec_title software_dev_rec = "Software Developer" /\ rec_matchPercentage software_dev_rec = 70%Z) /\
  (forall u, u = UTransportError \/ u = UNoContent \/ u = UNotJson ->
     generateCareerRecommendations [mkSkill "React" "technical" "advanced"] u
     = [recommendation_to_json full_stack_rec]).
Proof.
  intros skills. unfold getDefaultCareerRecommendations.
  split; [intros H1 H2; fam_cases; rewrite H1, H2; reflexivity|].
  split; [intros H1 H2; fam_cases; rewrite H1, H2; reflexivity|].
  split; [intros H1 H2; fam_cases; rewrite H1, H2; reflexivity|].
  split; [intros H1 H2; fam_cases; rewrite H1, H2; reflexivity|].
  split; [split; reflexivity|].
  split; [split; reflexivity|].
  split; [split; reflexivity|].
  intros u [->|[->| ->]]; vm_compute; reflexivity.
Qed.

Lemma default_career_recommendations_exact_witness :
  family_hit web_keywords [mkSkill "React" "technical" "advanced"] /\
  ~ family_hit data_keywords [mkSkill "React" "technical" "advanced"] /\
  getDefaultCareerRecommendations [mkSkill "React" "technical" "advanced"] = [full_stack_rec].
Proof.
  assert (Hw : family_hit web_keywords [mkSkill "React" "technical" "advanced"])
    by (apply family_hit_existsb; vm_compute; reflexivity).
  assert (Hd : ~ family_hit data_keywords [mkSkill "React" "technical" "advanced"])
    by (apply family_hit_false; vm_compute; reflexivity).
  split; [exact Hw|]. split; [exact Hd|].
  exact (proj1 (default_career_recommendations_exact _) Hw Hd).
Defined.

(** ** C10: family membership is case-insensitive substring containment *)

(** C10. A skill triggers a family iff its lowercased name contains one of
    the family's keywords as a substring; so "MySQL" and "Database Design"
    are data skills, "PYTHON" is one too, and a list with a web skill and a
    data skill yields the two-entry fallback. *)
Theorem fallback_family_is_substring_match :
  (forall s, matches_family web_keywords s = true <->
     exists tech pre post, In tech ["javascript"; "typescript"; "react"; "html"; "css"; "node"] /\
       toLowerCase (skill_name s) = String.append pre (String.append tech post)) /\
  (forall s, matches_family data_keywords s = true <->
     exists tech pre post,
       In tech ["python"; "sql"; "data"; "analytics"; "machine learning"; "statistics"] /\
       toLowerCase (skill_name s) = String.append pre (String.append tech post)) /\
  matches_family data_keywords (mkSkill "MySQL" "technical" "intermediate") = true /\
  matches_family data_keywords (mkSkill "Database Design" "technical" "beginner") = true /\
  matches_family data_keywords (mkSkill "PYTHON" "technical" "beginner") = true /\
  matches_family web_keywords (mkSkill "MySQL" "technical" "intermediate") = false /\
  getDefaultCareerRecommendations
    [mkSkill "React" "technical" "advanced"; mkSkill "MySQL" "technical" "intermediate"]
  = [full_stack_rec; data_analyst_rec].
Proof.
  split; [intros s; apply matches_family_spec|].
  split; [intros s; apply matches_family_spec|].
  repeat split; vm_compute; reflexivity.
Qed.

(** ** C1: the outcomes of [generateCareerRecommendations] *)

(** C1 (as stated, refuted). A parsed response that is an object without
    any array-valued property does not reach the fallback: the empty list is
    returned for a non-empty skill list. *)
Lemma generateCareerRecommendations_shape_miss_empty :
  generateCareerRecommendations [mkSkill "React" "technical" "advanced"]
    (UJson (JObj [("foo", JStr "bar")])) = [] /\
  getDefaultCareerRecommendations [mkSkill "React" "technical" "advanced"] <> [].
Proof.
  split; [vm_compute; reflexivity | apply getDefaultCareerRecommendations_not_empty].
Qed.

(** C1 (amended). [generateCareerRecommendations] is total (never throws).
    On a transport error, a missing content, a non-JSON content or a
    content parsing to [null] it returns the keyword fallback, which is
    never empty. Any other parsed value is returned without fallback: a bare
    array as it is; an array under a truthy [careers] (else
    [recommendations]) field as it is; for an object with neither field
    truthy, the first array-valued property, or [[]] when there is none;
    and [[]] for a parsed string, number or boolean. In general, the value
    picked by [parsed.careers || parsed.recommendations || parsed] (the
    first truthy one of the two fields, else the parsed value itself) is
    returned when it is an array; otherwise the first array among its
    [Object.values] is, or [[]] when there is none (so a truthy [careers]
    that is a string or a number gives [[]]). *)
Theorem generateCareerRecommendations_outcomes : forall skills u,
  ((u = UTransportError \/ u = UNoContent \/ u = UNotJson \/ u = UJson JNull) ->
     generateCareerRecommendations skills u
     = map recommendation_to_json (getDefaultCareerRecommendations skills) /\
     generateCareerRecommendations skills u <> []) /\
  (forall xs, u = UJson (JArr xs) -> generateCareerRecommendations skills u = xs) /\
  (forall v xs, u = UJson v -> get v "careers" = Defined (JArr xs) ->
     generateCareerRecommendations skills u = xs) /\
  (forall v xs, u = UJson v -> truthy_access (get v "careers") = false ->
     get v "recommendations" = Defined (JArr xs) ->
     generateCareerRecommendations skills u = xs) /\
  (forall fs, u = UJson (JObj fs) -> truthy_access (get (JObj fs) "careers") = false ->
     truthy_access (get (JObj fs) "recommendations") = false ->
     generateCareerRecommendations skills u
     = match first_array (map snd fs) with Some a => a | None => [] end) /\
  (forall v, u = UJson v ->
     (match v with JBool _ | JNum _ | JStr _ => True | _ => False end) ->
     generateCareerRecommendations skills u = []) /\
  (forall v c, u = UJson v -> get v "careers" = Defined c -> truthy c = true ->
     generateCareerRecommendations skills u
     = match c with
       | JArr xs => xs
       | _ => match first_array (object_values c) with Some a => a | None => [] end
       end) /\
  (forall v r, u = UJson v -> truthy_access (get v "careers") = false ->
     get v "recommendations" = Defined r -> truthy r = true ->
     generateCareerRecommendations skills u
     = match r with
       | JArr xs => xs
       | _ => match first_array (object_values r) with Some a => a | None => [] end
       end) /\
  (forall v, u = UJson v -> v <> JNull -> truthy_access (get v "careers") = false ->
     truthy_access (get v "recommendations") = false ->
     generateCareerRecommendations skills u
     = match v with
       | JArr xs => xs
       | _ => match first_array (object_values v) with Some a => a | None => [] end
       end).
Proof.
  intros skills u.
  split; [|split; [|split; [|split; [|split; [|split; [|split; [|split]]]]]]].
  - intros Hu. assert (E : generateCareerRecommendations skills u
                         = map recommendation_to_json (getDefaultCareerRecommendations skills))
      by (destruct Hu as [->|[->|[->| ->]]]; reflexivity).
    split; [exact E|]. rewrite E.
    pose proof (getDefaultCareerRecommendations_not_empty skills) as Hne.
    destruct (getDefaultCareerRecommendations skills); [contradiction | discriminate].
  - intros xs ->. reflexivity.
  - intros v xs -> Hc. unfold generateCareerRecommendations, career_try_body,
      pick_recommendations. rewrite Hc. reflexivity.
  - intros v xs -> Hc Hr. unfold generateCareerRecommendations, career_try_body,
      pick_recommendations.
    destruct (get v "careers") as [c| |] eqn:Ec; simpl in Hc.
    + unfold js_or at 1. rewrite Hc, Hr. reflexivity.
    + rewrite Hr. reflexivity.
    + apply get_throw in Ec. subst v. discriminate Hr.
  - intros fs -> Hc Hr. unfold generateCareerRecommendations, career_try_body,
      pick_recommendations.
    destruct (get (JObj fs) "careers") as [c| |] eqn:Ec;
      [| | apply get_throw in Ec; discriminate Ec];
    destruct (get (JObj fs) "recommendations") as [r| |] eqn:Er;
    simpl in Hc, Hr; unfold js_or; try rewrite Hc; try rewrite Hr; simpl;
    destruct (first_array (map snd fs)); reflexivity.
  - intros v -> Hv. destruct v; try contradiction; try reflexivity.
    unfold generateCareerRecommendations, career_try_body, pick_recommendations. simpl.
    rewrite first_array_string_chars. reflexivity.
  - intros v c -> Hc Ht. apply generate_parsed. unfold pick_recommendations.
    rewrite Hc. unfold js_or at 1. rewrite Ht. reflexivity.
  - intros v r -> Hc Hr Ht. apply generate_parsed. unfold pick_recommendations.
    destruct (get v "careers") as [c| |] eqn:Ec;
      [| | apply get_throw in Ec; subst v; discriminate Hr];
      rewrite (js_or_falsy _ _ Hc), Hr; unfold js_or; rewrite Ht; reflexivity.
  - intros v -> Hv Hc Hr. apply generate_parsed. unfold pick_recommendations.
    destruct (get v "careers") as [c| |] eqn:Ec; [| | apply get_throw in Ec; contradiction];
      rewrite (js_or_falsy _ _ Hc), (js_or_falsy _ _ Hr); reflexivity.
Qed.

Lemma generateCareerRecommendations_outcomes_witness :
  generateCareerRecommendations [mkSkill "Go" "technical" "beginner"] UTransportError
  = [recommendation_to_json software_dev_rec] /\
  generateCareerRecommendations [mkSkill "Go" "technical" "beginner"]
    (UJson (JObj [("careers", JNum 0); ("recommendations", JStr "abc")])) = [].
Proof.
  destruct (generateCareerRecommendations_outcomes [mkSkill "Go" "technical" "beginner"]
              UTransportError) as [H _].
  split; [rewrite (proj1 (H (or_introl eq_refl))); vm_compute; reflexivity|].
  destruct (generateCareerRecommendations_outcomes [mkSkill "Go" "technical" "beginner"]
              (UJson (JObj [("careers", JNum 0); ("recommendations", JStr "abc")])))
    as [_ [_ [_ [_ [_ [_ [_ [Hr _]]]]]]]].
  rewrite (Hr _ (JStr "abc") eq_refl eq_refl eq_refl eq_refl). reflexivity.
Defined.

(** ** C3: the roadmap template *)

(** C3. For every career path, on an upstream failure [generateRoadmap]
    returns the template, which has exactly 9 steps, 3 per phase in the
    order Beginner, Intermediate, Advanced; the skills of steps 1, 4 and 7
    are the slices of [requiredSkills] at positions 0-1, 2-3 and 4-5, empty
    when out of range. *)
Theorem default_roadmap_shape : forall careerPath currentSkills u,
  let rs := cp_requiredSkills careerPath in
  let steps := rd_steps (getDefaultRoadmap careerPath) in
  ((u = UTransportError \/ u = UNoContent \/ u = UNotJson) ->
     generateRoadmap careerPath currentSkills u = inr (getDefaultRoadmap careerPath)) /\
  length steps = 9 /\
  map sd_phase steps = ["Beginner"; "Beginner"; "Beginner";
                        "Intermediate"; "Intermediate"; "Intermediate";
                        "Advanced"; "Advanced"; "Advanced"] /\
  map sd_skills steps =
    [firstn 2 rs; ["Version Control"; "Development Environment"];
     ["Problem Solving"; "Project Structure"];
     firstn 2 (skipn 2 rs); ["Project Management"; "Documentation"];
     ["Team Collaboration"; "Code Review"];
     firstn 2 (skipn 4 rs); ["Architecture"; "Performance Optimization"];
     ["Interview Skills"; "Networking"]] /\
  (length rs <= 2 -> firstn 2 (skipn 2 rs) = [] /\ firstn 2 (skipn 4 rs) = []) /\
  (length rs <= 4 -> firstn 2 (skipn 4 rs) = []).
Proof.
  intros careerPath currentSkills u rs steps.
  split; [intros [->|[->| ->]]; reflexivity|].
  split; [reflexivity|]. split; [reflexivity|]. split; [reflexivity|].
  split.
  - intros H. rewrite !skipn_all2 by lia. split; reflexivity.
  - intros H. rewrite skipn_all2 by lia. reflexivity.
Qed.

Lemma default_roadmap_shape_witness :
  map sd_skills (rd_steps (getDefaultRoadmap
    (mkCareerPath 1 "u" "Data Analyst" "d" 80 [] ["Python"; "SQL"; "Excel"] None None false)))
  = [["Python"; "SQL"]; ["Version Control"; "Development Environment"];
     ["Problem Solving"; "Project Structure"]; ["Excel"];
     ["Project Management"; "Documentation"]; ["Team Collaboration"; "Code Review"];
     []; ["Architecture"; "Performance Optimization"]; ["Interview Skills"; "Networking"]]
  /\ generateRoadmap
       (mkCareerPath 1 "u" "Data Analyst" "d" 80 [] ["Python"; "SQL"; "Excel"] None None false)
       [] UTransportError
     = inr (getDefaultRoadmap
       (mkCareerPath 1 "u" "Data Analyst" "d" 80 [] ["Python"; "SQL"; "Excel"] None None false)).
Proof.
  destruct (default_roadmap_shape
    (mkCareerPath 1 "u" "Data Analyst" "d" 80 [] ["Python"; "SQL"; "Excel"] None None false)
    [] UTransportError) as [Hf [_ [_ [Hs [_ H4]]]]].
  split; [rewrite Hs; vm_compute; reflexivity | apply Hf; left; reflexivity].
Defined.

(** ** C7: [extractSkillsFromText] has no synthetic fallback *)

(** C7. [extractSkillsFromText] never throws; on a transport error, a
    missing content, a non-JSON content, or a parsed value whose [skills]
    field is missing or falsy (including a [null] value) it returns the
    empty array; in every case the result is the empty array or the parsed
    [skills] field itself, so no skill is made up. *)
Theorem extractSkillsFromText_no_fallback : forall text u,
  ((u = UTransportError \/ u = UNoContent \/ u = UNotJson) ->
     extractSkillsFromText text u = JArr []) /\
  (forall v, u = UJson v -> truthy_access (get v "skills") = false ->
     extractSkillsFromText text u = JArr []) /\
  (extractSkillsFromText text u = JArr [] \/
   exists v, u = UJson v /\ get v "skills" = Defined (extractSkillsFromText text u)).
Proof.
  intros text u. split; [intros [->|[->| ->]]; reflexivity|]. split.
  - intros v -> Hv. simpl.
    destruct (get v "skills") as [x| |]; simpl in Hv; [|reflexivity|reflexivity].
    unfold js_or. rewrite Hv. reflexivity.
  - destruct u as [| | |v]; try (left; reflexivity). simpl.
    destruct (get v "skills") as [x| |] eqn:E; try (left; reflexivity).
    unfold js_or. destruct (truthy x); [right; exists v; split; [reflexivity|exact E]|].
    left; reflexivity.
Qed.

Lemma extractSkillsFromText_no_fallback_witness :
  extractSkillsFromText "Python developer" (UJson (JObj [("other", JArr [])])) = JArr [].
Proof.
  apply (proj1 (proj2 (extractSkillsFromText_no_fallback "Python developer"
                         (UJson (JObj [("other", JArr [])])))) (JObj [("other", JArr [])]));
    reflexivity.
Defined.

(** ** C4: selection keeps exactly one selected path *)

(** The selected career paths of a user. *)
Definition selected_of (userId : string) (cps : list CareerPath) : list CareerPath :=
  filter (fun q => String.eqb (cp_userId q) userId && cp_isSelected q) cps.

Lemma clearSelection_none : forall s u,
  selected_of u (careerPaths (clearSelection s u)) = [].
Proof.
  intros s u. unfold clearSelection, selected_of. simpl.
  induction (careerPaths s) as [|x l IH]; simpl; [reflexivity|].
  destruct (String.eqb (cp_userId x) u) eqn:E; simpl; rewrite ?E, ?andb_false_r; exact IH.
Qed.

Definition select_map (u : string) (c : nat) (x : CareerPath) : CareerPath :=
  if Nat.eqb (cp_id (if String.eqb (cp_userId x) u then with_selected x false else x)) c
  then with_selected (if String.eqb (cp_userId x) u then with_selected x false else x) true
  else (if String.eqb (cp_userId x) u then with_selected x false else x).

Lemma selectCareerPath_paths : forall s u c,
  careerPaths (selectCareerPath s u c) = map (select_map u c) (careerPaths s).
Proof.
  intros s u c. unfold selectCareerPath, setSelection, clearSelection. simpl.
  rewrite map_map. reflexivity.
Qed.

Lemma select_map_fields : forall u c x,
  cp_id (select_map u c x) = cp_id x /\ cp_userId (select_map u c x) = cp_userId x /\
  (cp_userId x = u -> cp_isSelected (select_map u c x) = Nat.eqb (cp_id x) c) /\
  (Nat.eqb (cp_id x) c = true -> cp_isSelected (select_map u c x) = true).
Proof.
  intros u c x. unfold select_map.
  destruct (String.eqb (cp_userId x) u) eqn:Eu; simpl;
    destruct (Nat.eqb (cp_id x) c) eqn:Ec; simpl;
    repeat split; intros; try reflexivity; try discriminate.
  apply String.eqb_neq in Eu. contradiction.
Qed.

Lemma selected_of_no_c : forall u c l,
  (forall y, In y l -> cp_id y <> c) -> selected_of u (map (select_map u c) l) = [].
Proof.
  intros u c l. induction l as [|x l IH]; intros Hl; simpl; [reflexivity|].
  destruct (select_map_fields u c x) as [Hid [Hown [Hsel _]]].
  rewrite Hown. destruct (String.eqb (cp_userId x) u) eqn:Eu; simpl.
  - apply String.eqb_eq in Eu. rewrite (Hsel Eu).
    assert (Hx : Nat.eqb (cp_id x) c = false)
      by (apply Nat.eqb_neq; apply Hl; left; reflexivity).
    rewrite Hx. apply IH. intros y Hy. apply Hl. right. exact Hy.
  - apply IH. intros y Hy. apply Hl. right. exact Hy.
Qed.

Lemma selected_of_select : forall u c p l,
  NoDup (map cp_id l) -> In p l -> cp_id p = c -> cp_userId p = u ->
  selected_of u (map (select_map u c) l) = [select_map u c p].
Proof.
  intros u c p l. induction l as [|x l IH]; intros Hnd Hin Hid Hown; [destruct Hin|].
  simpl in Hnd. inversion Hnd as [|? ? Hnotin Hnd'].
  destruct Hin as [->|Hin].
  - simpl. destruct (select_map_fields u c p) as [_ [Ho [Hs _]]].
    rewrite Ho, Hown, String.eqb_refl, (Hs Hown), Hid, Nat.eqb_refl. simpl. f_equal.
    apply selected_of_no_c. intros y Hy Heq. apply Hnotin. rewrite Hid, <- Heq.
    apply in_map. exact Hy.
  - simpl. destruct (select_map_fields u c x) as [_ [Ho [Hs _]]]. rewrite Ho.
    assert (Hxc : Nat.eqb (cp_id x) c = false).
    { apply Nat.eqb_neq. intros Heq. apply Hnotin. rewrite Heq, <- Hid.
      apply in_map. exact Hin. }
    destruct (String.eqb (cp_userId x) u) eqn:Eu; simpl.
    + apply String.eqb_eq in Eu. rewrite (Hs Eu), Hxc. simpl. apply IH; auto.
    + apply IH; auto.
Qed.

Lemma deleteRoadmapsForUser_paths : forall s u,
  careerPaths (deleteRoadmapsForUser s u) = careerPaths s.
Proof. reflexivity. Qed.

Lemma createRoadmap_paths : forall s u c t d,
  careerPaths (snd (createRoadmap s u c t d)) = careerPaths s.
Proof. reflexivity. Qed.

Lemma createManyRoadmapSteps_paths : forall s rows,
  careerPaths (snd (createManyRoadmapSteps s rows)) = careerPaths s.
Proof.
  intros s [|r rows]; [reflexivity|]. unfold createManyRoadmapSteps.
  destruct (find _ _); reflexivity.
Qed.

(** C4. For a career path [c] owned by [u] (ids being a primary key): after
    the first update of [selectCareerPath] no path of [u] is selected, after
    the second exactly one is, and it is [c]; every other path of [u] is not
    selected; the rest of the select request leaves the career paths as
    [selectCareerPath] left them. So no state of the sequence has two
    selected paths of [u]. *)
Theorem selectCareerPath_exactly_one : forall s u c p up,
  NoDup (map cp_id (careerPaths s)) ->
  getCareerPath s c = Some p -> cp_userId p = u ->
  selected_of u (careerPaths (clearSelection s u)) = [] /\
  (exists p', selected_of u (careerPaths (selectCareerPath s u c)) = [p'] /\ cp_id p' = c) /\
  (forall q, In q (careerPaths (selectCareerPath s u c)) -> cp_userId q = u ->
     (cp_isSelected q = true <-> cp_id q = c)) /\
  careerPaths (snd (select_route s u c up)) = careerPaths (selectCareerPath s u c).
Proof.
  intros s u c p up Hnd Hget Hown.
  pose proof Hget as Hg.
  unfold getCareerPath in Hg. apply find_some in Hg. destruct Hg as [Hin Hc].
  apply Nat.eqb_eq in Hc.
  split; [apply clearSelection_none|].
  split; [|split].
  - exists (select_map u c p). rewrite selectCareerPath_paths.
    split; [apply selected_of_select; auto|].
    rewrite (proj1 (select_map_fields u c p)). exact Hc.
  - intros q Hq Hqu. rewrite selectCareerPath_paths in Hq. apply in_map_iff in Hq.
    destruct Hq as [x [<- Hx]].
    destruct (select_map_fields u c x) as [Hid [Ho [Hs _]]].
    rewrite Ho in Hqu. rewrite (Hs Hqu), Hid. apply Nat.eqb_eq.
  - unfold select_route. rewrite Hget, Hown, String.eqb_refl. simpl negb. cbv iota.
    destruct (roadmap_header _) as [[t d]|]; [|reflexivity].
    destruct (createRoadmap _ _ _ _ _) as [rid s3] eqn:E.
    assert (H3 : careerPaths s3 = careerPaths (selectCareerPath s u c)).
    { replace s3 with (snd (createRoadmap (deleteRoadmapsForUser (selectCareerPath s u c) u)
                               u (Some c) t d)) by (rewrite E; reflexivity).
      reflexivity. }
    destruct (roadmap_steps_of _) as [steps|]; [|exact H3].
    destruct (createManyRoadmapSteps s3 _) as [ok s4] eqn:E4. simpl.
    replace s4 with (snd (createManyRoadmapSteps s3 (step_rows rid 0 steps)))
      by (rewrite E4; reflexivity).
    rewrite createManyRoadmapSteps_paths. exact H3.
Qed.

Lemma selectCareerPath_exactly_one_witness :
  let s := mkStore ["u"] [] [mkCareerPath 1 "u" "Dev" "d" 80 [] [] None None false;
                             mkCareerPath 2 "u" "Analyst" "d" 70 [] [] None None true]
             [] [] 3 1 1 0 in
  NoDup (map cp_id (careerPaths s)) /\
  getCareerPath s 1 = Some (mkCareerPath 1 "u" "Dev" "d" 80 [] [] None None false) /\
  selected_of "u" (careerPaths (selectCareerPath s "u" 1))
  = [mkCareerPath 1 "u" "Dev" "d" 80 [] [] None None true].
Proof.
  intros s.
  assert (Hnd : NoDup (map cp_id (careerPaths s))).
  { simpl. constructor; [simpl; intros [H|[]]; discriminate H|].
    constructor; [intros []|constructor]. }
  split; [exact Hnd|]. split; [reflexivity|].
  destruct (selectCareerPath_exactly_one s "u" 1
              (mkCareerPath 1 "u" "Dev" "d" 80 [] [] None None false) UTransportError
              Hnd eq_refl eq_refl) as [_ [[p' [Hp' _]] _]].
  vm_compute. reflexivity.
Defined.

(** ** C5: roadmap regeneration *)

(** The [serial] sequence of [roadmaps] is above every id in use, and
    every step references an existing roadmap (the foreign key). *)
Definition roadmaps_wf (s : Store) : Prop :=
  (forall r, In r (roadmaps s) -> rm_id r < next_rm_id s) /\
  (forall st, In st (roadmapSteps s) ->
     exists r, In r (roadmaps s) /\ rm_id r = st_roadmapId st).

Definition step_payload (st : RoadmapStep) : RoadmapStepData :=
  mkStepData (st_phase st) (st_title st) (st_description st) (st_skills st) (st_duration st).

Lemma insert_by_order_last : forall x l,
  (forall y, In y l -> (st_orderIndex y <= st_orderIndex x)%Z) ->
  insert_by_order x l = l ++ [x].
Proof.
  intros x l. induction l as [|y l IH]; intros H; simpl; [reflexivity|].
  assert (Hy : Z.ltb (st_orderIndex x) (st_orderIndex y) = false)
    by (apply Z.ltb_ge; apply H; left; reflexivity).
  rewrite Hy, IH; [reflexivity|]. intros z Hz. apply H. right. exact Hz.
Qed.

Lemma step_rows_fields : forall rid n i steps,
  (forall st, In st (number_from n (step_rows rid i steps)) ->
     st_roadmapId st = rid /\ (Z.of_nat i <= st_orderIndex st)%Z) /\
  map st_orderIndex (number_from n (step_rows rid i steps))
  = map Z.of_nat (seq i (length steps)) /\
  map step_payload (number_from n (step_rows rid i steps)) = steps.
Proof.
  intros rid n i steps. revert n i.
  induction steps as [|sd steps IH]; intros n i; simpl;
    [split; [intros ? []|split; reflexivity]|].
  destruct (IH (S n) (S i)) as [Hf [Ho Hp]].
  split; [|split].
  - intros st [<-|Hst]; [simpl; split; [reflexivity|lia]|].
    destruct (Hf st Hst). split; [assumption|lia].
  - simpl. f_equal. exact Ho.
  - simpl. rewrite Hp. destruct sd; reflexivity.
Qed.

Lemma sort_step_rows : forall rid n i steps acc,
  (forall y, In y acc -> (st_orderIndex y <= Z.of_nat i)%Z) ->
  fold_left (fun acc x => insert_by_order x acc) (number_from n (step_rows rid i steps)) acc
  = acc ++ number_from n (step_rows rid i steps).
Proof.
  intros rid n i steps. revert n i.
  induction steps as [|sd steps IH]; intros n i acc Hacc; simpl.
  - rewrite app_nil_r. reflexivity.
  - rewrite insert_by_order_last by (simpl; exact Hacc).
    rewrite IH, <- app_assoc; [reflexivity|].
    intros y Hy. apply in_app_or in Hy. destruct Hy as [Hy|[<-|[]]].
    + specialize (Hacc y Hy). lia.
    + simpl. lia.
Qed.

Lemma createManyRoadmapSteps_tables : forall s rows s',
  createManyRoadmapSteps s rows = (true, s') ->
  roadmaps s' = roadmaps s /\
  roadmapSteps s' = roadmapSteps s ++ number_from (next_st_id s) rows.
Proof.
  intros s [|r rows] s' H; unfold createManyRoadmapSteps in H.
  - injection H as <-. rewrite app_nil_r. split; reflexivity.
  - destruct (find _ _); [discriminate H|]. injection H as <-. split; reflexivity.
Qed.

Lemma filter_none {A : Type} (f : A -> bool) (l : list A) :
  (forall x, In x l -> f x = false) -> filter f l = [].
Proof.
  induction l as [|x l IH]; intros H; simpl; [reflexivity|].
  rewrite (H x (or_introl eq_refl)). apply IH. intros y Hy. apply H. right. exact Hy.
Qed.

Lemma filter_all {A : Type} (f : A -> bool) (l : list A) :
  (forall x, In x l -> f x = true) -> filter f l = l.
Proof.
  induction l as [|x l IH]; intros H; simpl; [reflexivity|].
  rewrite (H x (or_introl eq_refl)), IH; [reflexivity|]. intros y Hy. apply H. right. exact Hy.
Qed.

(** C5. When the select request for [u] completes ([200]) on a well-formed
    store: every earlier roadmap of [u] is gone and has no retrievable step;
    [u] has exactly one roadmap, the one [getRoadmap] returns; its steps are
    the generated steps in their generated order, with [orderIndex] equal to
    their 0-based position. *)
Theorem select_route_regenerates_roadmap : forall s u c up s',
  roadmaps_wf s ->
  select_route s u c up = (Ok200, s') ->
  (forall r, In r (roadmaps s) -> rm_userId r = u ->
     ~ In r (roadmaps s') /\ getRoadmapSteps s' (rm_id r) = []) /\
  exists r' cp steps,
    getCareerPath s c = Some cp /\
    roadmap_steps_of (generateRoadmap cp (getSkills s u) up) = Some steps /\
    filter (fun r => String.eqb (rm_userId r) u) (roadmaps s') = [r'] /\
    getRoadmap s' u = Some (r', getRoadmapSteps s' (rm_id r')) /\
    map st_orderIndex (getRoadmapSteps s' (rm_id r')) = map Z.of_nat (seq 0 (length steps)) /\
    map step_payload (getRoadmapSteps s' (rm_id r')) = steps.
Proof.
  intros s u c up s' [Hlt Hfk] H.
  unfold select_route in H.
  destruct (getCareerPath s c) as [cp|] eqn:Hcp; [|discriminate H].
  destruct (String.eqb (cp_userId cp) u) eqn:Hown; cbv beta iota in H; [|discriminate H].
  destruct (roadmap_header _) as [[t d]|]; cbv beta iota in H; [|discriminate H].
  unfold createRoadmap in H. cbv zeta beta iota in H.
  change (getSkills (selectCareerPath s u c) u) with (getSkills s u) in H.
  destruct (roadmap_steps_of (generateRoadmap cp (getSkills s u) up)) as [steps|] eqn:Hst;
    cbv beta iota in H; [|discriminate H].
  match type of H with context [createManyRoadmapSteps ?S3 ?rw] =>
    destruct (createManyRoadmapSteps S3 rw) as [ok s4] eqn:Ec end.
  destruct ok; [|discriminate H]. injection H as Hs4. subst s4.
  cbn [deleteRoadmapsForUser selectCareerPath setSelection clearSelection set_careerPaths
       users skills careerPaths roadmaps roadmapSteps next_cp_id next_rm_id next_st_id now]
    in Ec.
  set (R := next_rm_id s).
  set (newr := mkRoadmap R u (Some c) t d (now s)).
  set (rows := number_from (next_st_id s) (step_rows R 0 steps)).
  destruct (step_rows_fields R (next_st_id s) 0 steps) as [Hrf [Hro Hrp]].
  fold rows in Hrf, Hro, Hrp.
  destruct (createManyRoadmapSteps_tables _ _ _ Ec) as [Er Es].
  cbn [roadmaps roadmapSteps next_st_id] in Er, Es. fold rows in Es.
  (* a surviving old step references a roadmap below [R] not owned by [u] *)
  assert (Hold : forall st, In st (roadmapSteps s') -> ~ In st rows ->
            st_roadmapId st < R /\
            forall r, In r (roadmaps s) -> rm_userId r = u -> st_roadmapId st <> rm_id r).
  { intros st Hin Hnot. rewrite Es in Hin. apply in_app_or in Hin.
    destruct Hin as [Hin|Hin]; [|contradiction].
    apply filter_In in Hin. destruct Hin as [Hin Hkeep].
    destruct (Hfk st Hin) as [r0 [Hr0 Hid0]]. split.
    - rewrite <- Hid0. apply Hlt. exact Hr0.
    - intros r Hr Hru Heq. apply negb_true_iff in Hkeep.
      assert (Hx : existsb (Nat.eqb (st_roadmapId st))
                     (map rm_id (filter (fun r => String.eqb (rm_userId r) u) (roadmaps s)))
                   = true).
      { apply existsb_exists. exists (rm_id r). split.
        - apply in_map. apply filter_In. split; [exact Hr|]. apply String.eqb_eq. exact Hru.
        - apply Nat.eqb_eq. exact Heq. }
      rewrite Hx in Hkeep. discriminate Hkeep. }
  assert (Hsplit : forall st, In st (roadmapSteps s') ->
            In st rows \/ (~ In st rows /\ In st (roadmapSteps s'))).
  { intros st Hin. pose proof Hin as Hin'. rewrite Es in Hin'.
    apply in_app_or in Hin'. destruct Hin' as [Ho|Hn]; [|left; exact Hn].
    right. split; [|exact Hin]. intros Hr. destruct (Hrf st Hr) as [HR _].
    apply filter_In in Ho. destruct Ho as [Ho _].
    destruct (Hfk st Ho) as [r0 [Hr0 Hid0]]. pose proof (Hlt r0 Hr0). unfold R in HR. lia. }
  assert (Hnew : getRoadmapSteps s' R = rows).
  { unfold getRoadmapSteps. rewrite Es.
    rewrite filter_app, (filter_none _ (filter _ _)), filter_all.
    - unfold sort_by_order. apply sort_step_rows. intros y [].
    - intros x Hx. apply Nat.eqb_eq. apply Hrf. exact Hx.
    - intros x Hx. apply Nat.eqb_neq. intros Heq.
      assert (Hx' : In x (roadmapSteps s')) by (rewrite Es; apply in_or_app; left; exact Hx).
      destruct (Hsplit x Hx') as [Hr|[Hnr _]].
      + apply filter_In in Hx. destruct Hx as [Hx _].
        destruct (Hfk x Hx) as [r0 [Hr0 Hid0]]. pose proof (Hlt r0 Hr0). unfold R in Heq. lia.
      + destruct (Hold x Hx' Hnr) as [Hb _]. lia. }
  assert (Hown_u : filter (fun r => String.eqb (rm_userId r) u) (roadmaps s') = [newr]).
  { rewrite Er, filter_app, filter_none.
    - simpl. rewrite String.eqb_refl. reflexivity.
    - intros x Hx. apply filter_In in Hx. destruct Hx as [_ Hx].
      apply negb_true_iff in Hx. exact Hx. }
  split.
  - intros r Hr Hru. pose proof (Hlt r Hr) as Hb. split.
    + rewrite Er. intros Hin. apply in_app_or in Hin. destruct Hin as [Hin|[Heq|[]]].
      * apply filter_In in Hin. destruct Hin as [_ Hin]. rewrite Hru, String.eqb_refl in Hin.
        discriminate Hin.
      * rewrite <- Heq in Hb. simpl in Hb. unfold R in Hb. lia.
    + unfold getRoadmapSteps. rewrite filter_none; [reflexivity|].
      intros x Hx. apply Nat.eqb_neq. intros Heq.
      destruct (Hsplit x Hx) as [Hxr|[Hnr Hx']].
      * destruct (Hrf x Hxr) as [HR _]. unfold R in HR. lia.
      * destruct (Hold x Hx' Hnr) as [_ Hne]. exact (Hne r Hr Hru Heq).
  - exists newr, cp, steps. split; [first [exact Hcp | reflexivity]|].
    split; [first [exact Hst | reflexivity]|].
    split; [exact Hown_u|].
    change (rm_id newr) with R. rewrite Hnew.
    split; [|split; [exact Hro|exact Hrp]].
    unfold getRoadmap. rewrite Hown_u. simpl. rewrite Hnew. reflexivity.
Qed.

Definition example_store : Store :=
  mkStore ["u"; "v"] [("u", mkSkill "React" "technical" "advanced")]
    [mkCareerPath 1 "u" "Dev" "d" 80 [] ["JavaScript"; "React"; "SQL"] None None false]
    [mkRoadmap 1 "u" (Some 1) "Old" None 0; mkRoadmap 2 "v" None "Other" None 1]
    [mkStep 1 1 "Beginner" "Old step" "x" [] None 0 (Some true);
     mkStep 2 2 "Beginner" "Other step" "y" [] None 0 (Some false)]
    2 3 3 2.

Lemma example_store_wf : roadmaps_wf example_store.
Proof.
  split.
  - intros r Hr. simpl in Hr. destruct Hr as [<-|[<-|[]]]; simpl; lia.
  - intros st Hst. simpl in Hst. destruct Hst as [<-|[<-|[]]].
    + exists (mkRoadmap 1 "u" (Some 1) "Old" None 0). simpl. auto.
    + exists (mkRoadmap 2 "v" None "Other" None 1). simpl. auto.
Qed.

Lemma select_route_regenerates_roadmap_witness :
  roadmaps_wf example_store /\
  select_route example_store "u" 1 UTransportError
  = (Ok200, snd (select_route example_store "u" 1 UTransportError)) /\
  getRoadmapSteps (snd (select_route example_store "u" 1 UTransportError)) 1 = [] /\
  length (getRoadmapSteps (snd (select_route example_store "u" 1 UTransportError)) 3) = 9.
Proof.
  assert (Hr : select_route example_store "u" 1 UTransportError
               = (Ok200, snd (select_route example_store "u" 1 UTransportError)))
    by (vm_compute; reflexivity).
  split; [exact example_store_wf|]. split; [exact Hr|].
  destruct (select_route_regenerates_roadmap example_store "u" 1 UTransportError _
              example_store_wf Hr) as [Hold _].
  split; [apply (Hold (mkRoadmap 1 "u" (Some 1) "Old" None 0)); simpl; auto|].
  vm_compute. reflexivity.
Defined.

(** ** C6: dashboard step counts *)

(** C6. The dashboard aggregation always answers [200]; for a user without
    any roadmap it reports [totalSteps = 0] and [completedSteps = 0]; when
    [getRoadmap] returns the current roadmap with its steps, [completedSteps]
    counts the steps with [isCompleted] and [totalSteps] is their number. *)
Theorem dashboard_stats_counts : forall s u,
  fst (dashboard_stats s u) = Ok200 /\
  (filter (fun r => String.eqb (rm_userId r) u) (roadmaps s) = [] ->
     dashboard_stats s u = (Ok200, mkStats 0 0)) /\
  (forall r steps, getRoadmap s u = Some (r, steps) ->
     steps = getRoadmapSteps s (rm_id r) /\
     dashboard_stats s u
     = (Ok200, mkStats (length (filter is_completed steps)) (length steps))).
Proof.
  intros s u. split; [reflexivity|]. split.
  - intros H. unfold dashboard_stats, getRoadmap. rewrite H. reflexivity.
  - intros r steps H. unfold dashboard_stats. rewrite H. split; [|reflexivity].
    unfold getRoadmap in H.
    destruct (filter _ (roadmaps s)) as [|r0 rs]; [discriminate H|].
    injection H as <- <-. reflexivity.
Qed.

Lemma dashboard_stats_counts_witness :
  filter (fun r => String.eqb (rm_userId r) "w") (roadmaps example_store) = [] /\
  dashboard_stats example_store "w" = (Ok200, mkStats 0 0).
Proof.
  assert (H : filter (fun r => String.eqb (rm_userId r) "w") (roadmaps example_store) = [])
    by reflexivity.
  split; [exact H|]. exact (proj1 (proj2 (dashboard_stats_counts example_store "w")) H).
Defined.

(** ** C8: what the step PATCH endpoint changes *)

(** A body [{ isCompleted: b }]. *)
Definition isCompleted_only (b : bool) : StepPatch :=
  mkPatch None None None None None None None None (Some (JBool b)) None.

(** C8 (the code writes more than [isCompleted]: the route passes the body
    unfiltered to [updateRoadmapStep]).
    On a store with steps [1] and [2], [PATCH /api/roadmap-steps/2] with the
    body [{"title": "Renamed"}] answers [200] and renames step [2], and with
    the body [{"id": 99}] answers [200] and renumbers it. *)
Lemma patch_step_route_renames :
  fst (patch_step_route example_store "2" (patch_of_body [("title", JStr "Renamed")]))
  = Ok200 /\
  map st_title (roadmapSteps example_store) = ["Old step"; "Other step"] /\
  map st_title (roadmapSteps (snd (patch_step_route example_store "2"
                                     (patch_of_body [("title", JStr "Renamed")]))))
  = ["Old step"; "Renamed"] /\
  fst (patch_step_route example_store "2" (patch_of_body [("id", JNum 99)])) = Ok200 /\
  map st_id (roadmapSteps (snd (patch_step_route example_store "2"
                                  (patch_of_body [("id", JNum 99)]))))
  = [1%Z; 99%Z].
Proof. repeat split; vm_compute; reflexivity. Qed.

(** ** C9: regeneration of career paths *)

Lemma traverse_opt_in {A B : Type} (f : A -> option B) : forall l l' y,
  traverse_opt f l = Some l' -> In y l' -> exists x, In x l /\ f x = Some y.
Proof.
  induction l as [|x l IH]; intros l' y H Hy; simpl in H.
  - injection H as <-. destruct Hy.
  - unfold bind_opt in H. destruct (f x) as [z|] eqn:Ef; [|discriminate H].
    destruct (traverse_opt f l) as [zs|] eqn:Et; [|discriminate H].
    injection H as <-. destruct Hy as [<-|Hy].
    + exists x. split; [left; reflexivity|exact Ef].
    + destruct (IH zs y eq_refl Hy) as [x' [Hx' Hf']]. exists x'. split; [right|]; assumption.
Qed.

Lemma career_insert_of_json_fields : forall u rec f,
  career_insert_of_json u rec = Some f ->
  forall id, cp_id (f id) = id /\ cp_userId (f id) = u /\ cp_isSelected (f id) = false.
Proof.
  intros u rec f H id.
  destruct rec; [discriminate H| | | | |];
    unfold career_insert_of_json, bind_opt in H;
    repeat match type of H with
    | context [match ?x with Some _ => _ | None => _ end] => destruct x
    end; try discriminate H; injection H as <-; repeat split.
Qed.

Lemma number_from_in {A : Type} : forall (rows : list (nat -> A)) n q,
  In q (number_from n rows) -> exists f k, In f rows /\ n <= k /\ q = f k.
Proof.
  induction rows as [|f rows IH]; intros n q H; simpl in H; [destruct H|].
  destruct H as [<-|H].
  - exists f, n. split; [left; reflexivity|]. split; [lia|reflexivity].
  - destruct (IH (S n) q H) as [g [k [Hg [Hk ->]]]].
    exists g, k. split; [right; exact Hg|]. split; [lia|reflexivity].
Qed.

(** C9 (as stated, refuted). A user who removed all skills after selecting a
    path gets [400] from the generate request, and the selected path stays. *)
Lemma generate_route_without_skills_keeps_selection :
  let s := mkStore ["u"] []
             [mkCareerPath 1 "u" "Dev" "d" 80 [] [] None None true] [] [] 2 1 1 0 in
  generate_route s "u" UTransportError = (Err400, s) /\
  selected_of "u" (careerPaths (snd (generate_route s "u" UTransportError)))
  = [mkCareerPath 1 "u" "Dev" "d" 80 [] [] None None true].
Proof. split; reflexivity. Qed.

(** C9 (amended). A generate request for a user without skills is rejected
    with [400] and one for an unknown user with [404], both changing
    nothing. Any other generate request ends in [200] or [500] and, either
    way, has deleted every career path the user owned before, and every path
    of the user afterwards is a newly inserted one with [isSelected = false]:
    no path of the user is selected. *)
Theorem generate_route_resets_selection : forall s u up,
  (forall p, In p (careerPaths s) -> cp_id p < next_cp_id s) ->
  (getSkills s u = [] -> generate_route s u up = (Err400, s)) /\
  (getSkills s u <> [] -> getUser s u = false -> generate_route s u up = (Err404, s)) /\
  (getSkills s u <> [] -> getUser s u = true ->
     (fst (generate_route s u up) = Ok200 \/ fst (generate_route s u up) = Err500) /\
     (forall p, In p (careerPaths s) -> cp_userId p = u ->
        ~ In p (careerPaths (snd (generate_route s u up)))) /\
     (forall q, In q (careerPaths (snd (generate_route s u up))) -> cp_userId q = u ->
        cp_isSelected q = false)).
Proof.
  intros s u up Hlt. unfold generate_route.
  split; [intros ->; reflexivity|].
  split; [intros Hne Hu; destruct (getSkills s u); [contradiction|]; rewrite Hu; reflexivity|].
  intros Hne Hu. destruct (getSkills s u) as [|sk0 sks]; [contradiction|]. rewrite Hu.
  cbv beta iota.
  set (s1 := deleteAllCareerPathsForUser s u).
  assert (H1 : careerPaths s1 = filter (fun p => negb (String.eqb (cp_userId p) u)) (careerPaths s))
    by reflexivity.
  assert (Hold : forall q, In q (careerPaths s1) -> cp_userId q <> u).
  { intros q Hq. rewrite H1 in Hq. apply filter_In in Hq. destruct Hq as [_ Hq].
    apply negb_true_iff, String.eqb_neq in Hq. exact Hq. }
  destruct (traverse_opt (career_insert_of_json u) _) as [rows|] eqn:Et; simpl.
  - assert (Hc : careerPaths (createManyCareerPaths s1 rows)
                 = careerPaths s1 ++ number_from (next_cp_id s) rows)
      by (destruct rows; simpl; [rewrite app_nil_r|]; reflexivity).
    assert (Hnew : forall q, In q (number_from (next_cp_id s) rows) ->
              next_cp_id s <= cp_id q /\ cp_userId q = u /\ cp_isSelected q = false).
    { intros q Hq. destruct (number_from_in rows _ q Hq) as [f [k [Hf [Hk ->]]]].
      destruct (traverse_opt_in _ _ _ f Et Hf) as [rec [_ Hrec]].
      destruct (career_insert_of_json_fields u rec f Hrec k) as [Hid [Ho Hs]].
      rewrite Hid. auto. }
    split; [left; reflexivity|]. rewrite Hc. split.
    + intros p Hp Hpu Hin. apply in_app_or in Hin. destruct Hin as [Hin|Hin].
      * exact (Hold p Hin Hpu).
      * destruct (Hnew p Hin) as [Hb _]. pose proof (Hlt p Hp). lia.
    + intros q Hq Hqu. apply in_app_or in Hq. destruct Hq as [Hq|Hq].
      * exfalso. exact (Hold q Hq Hqu).
      * apply Hnew. exact Hq.
  - split; [right; reflexivity|]. split.
    + intros p _ Hpu Hin. exact (Hold p Hin Hpu).
    + intros q Hq Hqu. exfalso. exact (Hold q Hq Hqu).
Qed.

Lemma generate_route_resets_selection_witness :
  (forall p, In p (careerPaths example_store) -> cp_id p < next_cp_id example_store) /\
  selected_of "u" (careerPaths (snd (generate_route example_store "u" UTransportError))) = [].
Proof.
  assert (Hlt : forall p, In p (careerPaths example_store) -> cp_id p < next_cp_id example_store).
  { intros p Hp. simpl in Hp. destruct Hp as [<-|[]]. simpl. lia. }
  split; [exact Hlt|].
  destruct (generate_route_resets_selection example_store "u" UTransportError Hlt)
    as [_ [_ H]].
  assert (Hsk : getSkills example_store "u" <> []) by discriminate.
  destruct (H Hsk eq_refl) as [_ [_ Hsel]].
  apply filter_none. intros q Hq.
  destruct (String.eqb (cp_userId q) "u") eqn:E; [|reflexivity].
  rewrite (Hsel q Hq (proj1 (String.eqb_eq _ _) E)). reflexivity.
Defined.

(** ** The resume extraction endpoint *)

Lemma trim_start_length : forall s, String.length (trim_start s) <= String.length s.
Proof.
  induction s as [|c s IH]; simpl; [lia|].
  destruct (js_space c); simpl; lia.
Qed.

Lemma trim_end_length : forall s, String.length (trim_end s) <= String.length s.
Proof.
  induction s as [|c s IH]; simpl; [lia|].
  destruct (trim_end s) as [|c' r] eqn:E; simpl in *.
  - destruct (js_space c); simpl; lia.
  - lia.
Qed.

Lemma js_trim_length : forall s, String.length (js_trim s) <= String.length s.
Proof.
  intros s. unfold js_trim. pose proof (trim_start_length s).
  pose proof (trim_end_length (trim_start s)). lia.
Qed.

Lemma traverse_opt_none {A B : Type} (f : A -> option B) : forall l x,
  In x l -> f x = None -> traverse_opt f l = None.
Proof.
  induction l as [|y l IH]; intros x Hx Hf; [destruct Hx|]. simpl.
  destruct Hx as [->|Hx].
  - rewrite Hf. reflexivity.
  - unfold bind_opt. destruct (f y); [|reflexivity]. rewrite (IH x Hx Hf). reflexivity.
Qed.

Lemma traverse_opt_Forall2 {A B : Type} (f : A -> option B) : forall l l',
  traverse_opt f l = Some l' -> Forall2 (fun x y => f x = Some y) l l'.
Proof.
  induction l as [|x l IH]; intros l' H; simpl in H.
  - injection H as <-. constructor.
  - unfold bind_opt in H. destruct (f x) as [y|] eqn:Ef; [|discriminate H].
    destruct (traverse_opt f l) as [ys|] eqn:Et; [|discriminate H].
    injection H as <-. constructor; [exact Ef|]. apply IH. reflexivity.
Qed.

Lemma skill_insert_of_json_fields : forall userId x r,
  skill_insert_of_json userId x = Some r ->
  si_userId r = userId /\ get x "name" = Defined (si_name r) /\
  get x "category" = Defined (si_category r) /\
  get x "proficiency" = Defined (si_proficiency r).
Proof.
  intros userId x r H.
  assert (Hc : forall a v, not_null_col a = Some v -> a = Defined v)
    by (intros [[]| |] v E; unfold not_null_col in E; try discriminate E;
        destruct (param_text _); try discriminate E; injection E as <-; reflexivity).
  destruct x; [discriminate H| | | | |];
    unfold skill_insert_of_json, bind_opt in H;
    destruct (not_null_col (get _ "name")) as [nm|] eqn:En; try discriminate H;
    destruct (not_null_col (get _ "category")) as [ca|] eqn:Ec; try discriminate H;
    destruct (not_null_col (get _ "proficiency")) as [pr|] eqn:Ep; try discriminate H;
    injection H as <-; simpl; repeat split; apply Hc; assumption.
Qed.

Lemma extract_route_text : forall userId originalname text u,
  extract_route userId (PdfParsed originalname text) u =
  if String.eqb text "" || Nat.ltb (String.length (js_trim text)) 50
  then (Err400, [], None) else
  if js_length_is_zero (extractSkillsFromText text u) then (Err400, [], None) else
  match as_array (extractSkillsFromText text u) with
  | None => (Err500, [], None)
  | Some xs =>
      match traverse_opt (skill_insert_of_json userId) xs with
      | None => (Err500, [], None)
      | Some rows =>
          if has_nul originalname || json_has_nul (extractSkillsFromText text u)
          then (Err500, rows, None)
          else (Ok200, rows,
                Some (mkResumeInsert userId originalname (extractSkillsFromText text u)))
      end
  end.
Proof. reflexivity. Qed.

(** When the completion call fails (transport error, no content, content
    that is not JSON) or its reply has no truthy [skills] property,
    [extractSkillsFromText] gives [[]] and the request is rejected with
    [400] without inserting any skill or resume row. *)
Theorem extract_route_ai_failure_writes_nothing : forall userId file u,
  (u = UTransportError \/ u = UNoContent \/ u = UNotJson \/
   exists v, u = UJson v /\ truthy_access (get v "skills") = false) ->
  extract_route userId file u = (Err400, [], None).
Proof.
  intros userId file u Hu.
  assert (He : forall text, extractSkillsFromText text u = JArr []).
  { intros text. destruct Hu as [->|[->|[->|[v [-> Hv]]]]]; try reflexivity.
    simpl. destruct (get v "skills") as [x| |]; try reflexivity.
    simpl in Hv. simpl. rewrite Hv. reflexivity. }
  destruct file as [| |originalname text]; try reflexivity.
  rewrite extract_route_text, He. simpl.
  destruct (String.eqb text "" || Nat.ltb _ 50); reflexivity.
Qed.

(** A request that succeeds had a text of at least 50 characters after
    trimming and a non-empty array of extracted skills; it inserts one
    skill row per array element, in order, each owned by the session user
    and carrying the element's [name], [category] and [proficiency] as
    they are (no check that the category or the level is one of the
    documented values), and one resume row keeping the array. *)
Theorem extract_route_ok_rows : forall userId originalname text u rows res,
  extract_route userId (PdfParsed originalname text) u = (Ok200, rows, res) ->
  50 <= String.length (js_trim text) /\
  exists xs, extractSkillsFromText text u = JArr xs /\ xs <> [] /\
    res = Some (mkResumeInsert userId originalname (JArr xs)) /\
    Forall2 (fun x r => si_userId r = userId /\
                        get x "name" = Defined (si_name r) /\
                        get x "category" = Defined (si_category r) /\
                        get x "proficiency" = Defined (si_proficiency r)) xs rows.
Proof.
  intros userId originalname text u rows res H.
  rewrite extract_route_text in H.
  destruct (String.eqb text "" || Nat.ltb (String.length (js_trim text)) 50) eqn:Eg;
    [discriminate H|].
  apply orb_false_iff in Eg. destruct Eg as [_ Eg]. apply Nat.ltb_ge in Eg.
  split; [exact Eg|].
  destruct (js_length_is_zero (extractSkillsFromText text u)) eqn:Ez; [discriminate H|].
  destruct (extractSkillsFromText text u) as [| | | |xs|] eqn:Ex; try discriminate H.
  simpl in H. destruct (traverse_opt (skill_insert_of_json userId) xs) as [rs|] eqn:Et;
    [|discriminate H].
  destruct (has_nul originalname || _); [discriminate H|].
  injection H as <- <-. exists xs. split; [reflexivity|].
  split; [intros ->; discriminate Ez|]. split; [reflexivity|].
  apply traverse_opt_Forall2 in Et. eapply Forall2_impl; [|exact Et].
  intros x r Hx. exact (skill_insert_of_json_fields userId x r Hx).
Qed.

(** The skill rows are inserted all or none: a reply whose [skills] value
    is not an array, or an array one element of which is [null] or lacks
    [name], [category] or [proficiency], ends in [400] or [500] with no
    skill and no resume row written. *)
Theorem extract_route_all_or_nothing : forall userId originalname text u,
  (as_array (extractSkillsFromText text u) = None \/
   exists xs x, extractSkillsFromText text u = JArr xs /\ In x xs /\
     skill_insert_of_json userId x = None) ->
  extract_route userId (PdfParsed originalname text) u = (Err400, [], None) \/
  extract_route userId (PdfParsed originalname text) u = (Err500, [], None).
Proof.
  intros userId originalname text u H. rewrite extract_route_text.
  destruct (String.eqb text "" || _); [left; reflexivity|].
  destruct (js_length_is_zero _); [left; reflexivity|]. right.
  destruct H as [H|[xs [x [Hx [Hin Hn]]]]].
  - rewrite H. reflexivity.
  - rewrite Hx. simpl. rewrite (traverse_opt_none _ xs x Hin Hn). reflexivity.
Qed.

Lemma extract_route_ai_failure_writes_nothing_witness :
  extract_route "u" (PdfParsed "cv.pdf"
    "Jane Doe, software engineer: React, TypeScript, SQL, Docker, Kubernetes.")
    (UJson (JObj [("skills", JNull)]))
  = (Err400, [], None).
Proof.
  apply extract_route_ai_failure_writes_nothing.
  right. right. right. exists (JObj [("skills", JNull)]). split; reflexivity.
Defined.

Lemma extract_route_ok_rows_witness :
  let reply := UJson (JObj [("skills", JArr [JObj [("name", JStr "React");
                 ("category", JStr "wizardry"); ("proficiency", JStr "expert")]])]) in
  let text := "Jane Doe, software engineer: React, TypeScript, SQL, Docker, Kubernetes." in
  extract_route "u" (PdfParsed "cv.pdf" text) reply
  = (Ok200, [mkSkillInsert "u" (JStr "React") (JStr "wizardry") (JStr "expert")],
     Some (mkResumeInsert "u" "cv.pdf" (JArr [JObj [("name", JStr "React");
                 ("category", JStr "wizardry"); ("proficiency", JStr "expert")]]))) /\
  50 <= String.length (js_trim text).
Proof.
  intros reply text.
  assert (H : extract_route "u" (PdfParsed "cv.pdf" text) reply
              = (Ok200, [mkSkillInsert "u" (JStr "React") (JStr "wizardry") (JStr "expert")],
                 Some (mkResumeInsert "u" "cv.pdf" (JArr [JObj [("name", JStr "React");
                   ("category", JStr "wizardry"); ("proficiency", JStr "expert")]]))))
    by (vm_compute; reflexivity).
  split; [exact H|]. exact (proj1 (extract_route_ok_rows _ _ _ _ _ _ H)).
Defined.

Lemma extract_route_all_or_nothing_witness :
  let reply := UJson (JObj [("skills", JArr [JObj [("name", JStr "React");
                 ("category", JStr "technical"); ("proficiency", JStr "expert")];
                                              JObj [("name", JStr "SQL")]])]) in
  let text := "Jane Doe, software engineer: React, TypeScript, SQL, Docker, Kubernetes." in
  (exists xs x, extractSkillsFromText text reply = JArr xs /\ In x xs /\
     skill_insert_of_json "u" x = None) /\
  (extract_route "u" (PdfParsed "cv.pdf" text) reply = (Err400, [], None) \/
   extract_route "u" (PdfParsed "cv.pdf" text) reply = (Err500, [], None)).
Proof.
  intros reply text.
  assert (H : exists xs x, extractSkillsFromText text reply = JArr xs /\ In x xs /\
                skill_insert_of_json "u" x = None).
  { eexists. exists (JObj [("name", JStr "SQL")]). split; [reflexivity|].
    split; [right; left; reflexivity|reflexivity]. }
  split; [exact H|]. apply extract_route_all_or_nothing. right. exact H.
Defined.

(** ** The generate endpoint *)

Lemma createManyCareerPaths_tables : forall s rows,
  careerPaths (createManyCareerPaths s rows) = careerPaths s ++ number_from (next_cp_id s) rows /\
  roadmaps (createManyCareerPaths s rows) = roadmaps s /\
  roadmapSteps (createManyCareerPaths s rows) = roadmapSteps s /\
  next_cp_id (createManyCareerPaths s rows) = next_cp_id s + length rows /\
  next_rm_id (createManyCareerPaths s rows) = next_rm_id s.
Proof.
  intros s [|r rows]; simpl; [rewrite app_nil_r, Nat.add_0_r|]; repeat split.
Qed.

Lemma number_from_ids : forall (rows : list InsertCareerPath) n,
  (forall f, In f rows -> forall k, cp_id (f k) = k) ->
  map cp_id (number_from n rows) = seq n (length rows).
Proof.
  induction rows as [|f rows IH]; intros n H; simpl; [reflexivity|].
  rewrite (H f (or_introl eq_refl)), IH; [reflexivity|].
  intros g Hg. apply H. right. exact Hg.
Qed.

(** A generate request either leaves the store as it is (a guard rejects
    it) or passes both guards. *)
Lemma generate_route_cases : forall s u up,
  snd (generate_route s u up) = s \/ (getSkills s u <> [] /\ getUser s u = true).
Proof.
  intros s u up. unfold generate_route.
  destruct (getSkills s u) as [|sk sks] eqn:E; [left; reflexivity|].
  destruct (getUser s u) eqn:Eu; [right; split; [discriminate|reflexivity]|left; reflexivity].
Qed.

(** Past the guards: the store after the cascading delete, with the
    decoded rows appended under fresh consecutive ids (none on [500]). *)
Lemma generate_route_shape : forall s u up,
  getSkills s u <> [] -> getUser s u = true ->
  exists rows,
    careerPaths (snd (generate_route s u up))
    = careerPaths (deleteAllCareerPathsForUser s u) ++ number_from (next_cp_id s) rows /\
    roadmaps (snd (generate_route s u up)) = roadmaps (deleteAllCareerPathsForUser s u) /\
    roadmapSteps (snd (generate_route s u up)) = roadmapSteps (deleteAllCareerPathsForUser s u) /\
    next_cp_id (snd (generate_route s u up)) = next_cp_id s + length rows /\
    next_rm_id (snd (generate_route s u up)) = next_rm_id s /\
    map cp_id (number_from (next_cp_id s) rows) = seq (next_cp_id s) (length rows) /\
    (forall q, In q (number_from (next_cp_id s) rows) ->
       cp_userId q = u /\ cp_isSelected q = false).
Proof.
  intros s u up Hne Hu. unfold generate_route.
  destruct (getSkills s u) as [|sk0 sks]; [contradiction|]. rewrite Hu.
  cbv beta iota.
  destruct (traverse_opt (career_insert_of_json u) _) as [rows|] eqn:Et; simpl.
  - exists rows.
    destruct (createManyCareerPaths_tables (deleteAllCareerPathsForUser s u) rows)
      as [Hc [Hr [Hs [Hn Hm]]]].
    rewrite Hc, Hr, Hs, Hn, Hm.
    split; [reflexivity|]. split; [reflexivity|]. split; [reflexivity|].
    split; [reflexivity|]. split; [reflexivity|]. split.
    + apply number_from_ids. intros f Hf k.
      destruct (traverse_opt_in _ _ _ f Et Hf) as [rec [_ Hrec]].
      exact (proj1 (career_insert_of_json_fields u rec f Hrec k)).
    + intros q Hq. destruct (number_from_in rows _ q Hq) as [f [k [Hf [_ ->]]]].
      destruct (traverse_opt_in _ _ _ f Et Hf) as [rec [_ Hrec]].
      exact (proj2 (career_insert_of_json_fields u rec f Hrec k)).
  - exists []. simpl. rewrite app_nil_r, Nat.add_0_r.
    split; [reflexivity|]. split; [reflexivity|]. split; [reflexivity|].
    split; [reflexivity|]. split; [reflexivity|]. split; [reflexivity|]. intros q [].
Qed.

Lemma filter_filter_neq : forall (l : list CareerPath) u v, v <> u ->
  filter (fun p => String.eqb (cp_userId p) v)
    (filter (fun p => negb (String.eqb (cp_userId p) u)) l)
  = filter (fun p => String.eqb (cp_userId p) v) l.
Proof.
  intros l u v Hvu. induction l as [|p l IH]; simpl; [reflexivity|].
  destruct (String.eqb (cp_userId p) u) eqn:Eu; simpl.
  - apply String.eqb_eq in Eu. rewrite Eu.
    rewrite (proj2 (String.eqb_neq u v)) by congruence. exact IH.
  - destruct (String.eqb (cp_userId p) v); [f_equal|]; exact IH.
Qed.

Definition cascade_hit (s : Store) (u : string) (r : Roadmap) : bool :=
  match rm_careerPathId r with
  | Some c => existsb (Nat.eqb c)
                (map cp_id (filter (fun p => String.eqb (cp_userId p) u) (careerPaths s)))
  | None => false
  end.

Lemma deleteAll_tables : forall s u,
  roadmaps (deleteAllCareerPathsForUser s u)
  = filter (fun r => negb (cascade_hit s u r)) (roadmaps s) /\
  roadmapSteps (deleteAllCareerPathsForUser s u)
  = filter (fun st => negb (existsb (Nat.eqb (st_roadmapId st))
                              (map rm_id (filter (cascade_hit s u) (roadmaps s)))))
      (roadmapSteps s).
Proof. split; reflexivity. Qed.

Lemma cascade_hit_spec : forall s u r,
  cascade_hit s u r = true <-> tied_to_paths_of s u r.
Proof.
  intros s u r. unfold cascade_hit, tied_to_paths_of.
  destruct (rm_careerPathId r) as [c|].
  - rewrite existsb_exists. split.
    + intros [c' [Hc' Hcc]]. apply in_map_iff in Hc'. destruct Hc' as [p [<- Hp]].
      apply filter_In in Hp. destruct Hp as [Hp Hpu]. apply String.eqb_eq in Hpu.
      apply Nat.eqb_eq in Hcc. exists p. rewrite Hcc. auto.
    + intros [p [Hp [Hpu Hpc]]]. injection Hpc as ->. exists (cp_id p).
      split; [|apply Nat.eqb_refl]. apply in_map. apply filter_In.
      split; [exact Hp|]. apply String.eqb_eq. exact Hpu.
  - split; [discriminate|]. intros [p [_ [_ Hp]]]. discriminate Hp.
Qed.

Lemma deleteAll_roadmaps_in : forall s u r,
  In r (roadmaps (deleteAllCareerPathsForUser s u)) <->
  In r (roadmaps s) /\ ~ tied_to_paths_of s u r.
Proof.
  intros s u r. rewrite (proj1 (deleteAll_tables s u)), filter_In, negb_true_iff,
    <- cascade_hit_spec.
  destruct (cascade_hit s u r); intuition congruence.
Qed.

Lemma deleteAll_steps_of_tied : forall s u r st,
  In r (roadmaps s) -> tied_to_paths_of s u r ->
  In st (roadmapSteps (deleteAllCareerPathsForUser s u)) -> st_roadmapId st <> rm_id r.
Proof.
  intros s u r st Hr Ht Hst Heq.
  rewrite (proj2 (deleteAll_tables s u)), filter_In, negb_true_iff in Hst.
  destruct Hst as [_ Hst].
  assert (Hx : existsb (Nat.eqb (st_roadmapId st)) (map rm_id (filter (cascade_hit s u) (roadmaps s)))
               = true).
  { apply existsb_exists. exists (rm_id r). split; [|rewrite Heq; apply Nat.eqb_refl].
    apply in_map. apply filter_In. split; [exact Hr|]. apply cascade_hit_spec. exact Ht. }
  rewrite Hx in Hst. discriminate Hst.
Qed.

Lemma sort_by_order_nil : sort_by_order [] = [].
Proof. reflexivity. Qed.

(** A generate request by one user never changes the career paths of
    another user, whatever it answers. *)
Theorem generate_route_other_users_paths : forall s u up v,
  v <> u ->
  filter (fun p => String.eqb (cp_userId p) v) (careerPaths (snd (generate_route s u up)))
  = filter (fun p => String.eqb (cp_userId p) v) (careerPaths s).
Proof.
  intros s u up v Hvu.
  destruct (generate_route_cases s u up) as [Hs|[Hne Hu]]; [rewrite Hs; reflexivity|].
  destruct (generate_route_shape s u up Hne Hu) as [rows [Hc [_ [_ [_ [_ [_ Hnew]]]]]]].
  rewrite Hc, filter_app.
  change (careerPaths (deleteAllCareerPathsForUser s u))
    with (filter (fun p => negb (String.eqb (cp_userId p) u)) (careerPaths s)).
  rewrite filter_filter_neq by exact Hvu.
  rewrite (filter_none _ (number_from _ _)), app_nil_r; [reflexivity|].
  intros q Hq. apply String.eqb_neq. rewrite (proj1 (Hnew q Hq)). congruence.
Qed.

(** Past its guards, a generate request deletes, through the cascade of
    [roadmaps.career_path_id], exactly the roadmaps generated from a
    career path the user owned, with all their steps; any other roadmap
    stays. This happens also when the request ends in [500]. *)
Theorem generate_route_drops_roadmaps_of_old_paths : forall s u up r,
  getSkills s u <> [] -> getUser s u = true -> In r (roadmaps s) ->
  (In r (roadmaps (snd (generate_route s u up))) <-> ~ tied_to_paths_of s u r) /\
  (tied_to_paths_of s u r -> getRoadmapSteps (snd (generate_route s u up)) (rm_id r) = []).
Proof.
  intros s u up r Hne Hu Hr.
  destruct (generate_route_shape s u up Hne Hu) as [rows [_ [Hrm [Hst _]]]].
  rewrite Hrm, deleteAll_roadmaps_in. split; [tauto|].
  intros Ht. unfold getRoadmapSteps. rewrite Hst, filter_none; [reflexivity|].
  intros st Hin. apply Nat.eqb_neq. exact (deleteAll_steps_of_tied s u r st Hr Ht Hin).
Qed.

(** When every roadmap of the user was generated from one of the user's
    career paths (as the select request makes them), regenerating the
    recommendations leaves the user without a roadmap: the dashboard
    reports [0] steps, [0] completed, whatever the generate request
    answers past its guards. *)
Theorem generate_route_resets_dashboard : forall s u up,
  getSkills s u <> [] -> getUser s u = true ->
  (forall r, In r (roadmaps s) -> rm_userId r = u -> tied_to_paths_of s u r) ->
  dashboard_stats (snd (generate_route s u up)) u = (Ok200, mkStats 0 0).
Proof.
  intros s u up Hne Hu Htied.
  destruct (generate_route_shape s u up Hne Hu) as [rows [_ [Hrm _]]].
  unfold dashboard_stats, getRoadmap.
  rewrite Hrm, (filter_none (fun r => String.eqb (rm_userId r) u)); [reflexivity|].
  intros r Hin. apply deleteAll_roadmaps_in in Hin. destruct Hin as [Hin Hnt].
  destruct (String.eqb (rm_userId r) u) eqn:E; [|reflexivity].
  exfalso. apply Hnt. apply Htied; [exact Hin|]. apply String.eqb_eq. exact E.
Qed.

(** The recommendation objects of the fallback list. *)
Definition default_recs : list CareerRecommendation :=
  [full_stack_rec; data_analyst_rec; software_dev_rec].

Lemma getDefaultCareerRecommendations_in : forall sk r,
  In r (getDefaultCareerRecommendations sk) -> In r default_recs.
Proof.
  intros sk r. unfold getDefaultCareerRecommendations.
  destruct (existsb (matches_family web_keywords) sk), (existsb (matches_family data_keywords) sk);
    simpl; intros H; unfold default_recs; simpl; tauto.
Qed.

Lemma career_insert_of_recommendation : forall u r,
  In r default_recs ->
  career_insert_of_json u (recommendation_to_json r) = Some (career_row u r).
Proof. intros u r [<-|[<-|[<-|[]]]]; vm_compute; reflexivity. Qed.

Lemma traverse_recommendations : forall u l,
  (forall r, In r l -> In r default_recs) ->
  traverse_opt (career_insert_of_json u) (map recommendation_to_json l)
  = Some (map (career_row u) l).
Proof.
  intros u. induction l as [|r l IH]; intros Hl; [reflexivity|]. cbn [map traverse_opt].
  rewrite career_insert_of_recommendation by (apply Hl; left; reflexivity).
  cbn [bind_opt]. rewrite IH; [reflexivity|]. intros r' Hr'. apply Hl. right. exact Hr'.
Qed.

(** When the completion call fails, a generate request that passes its
    guards answers [200], and the user's career paths are then exactly
    the rows of the fallback list for the user's skills, in its order,
    under fresh consecutive ids, none selected. *)
Theorem generate_route_fallback_rows : forall s u up,
  getSkills s u <> [] -> getUser s u = true ->
  (up = UTransportError \/ up = UNoContent \/ up = UNotJson) ->
  fst (generate_route s u up) = Ok200 /\
  filter (fun p => String.eqb (cp_userId p) u) (careerPaths (snd (generate_route s u up)))
  = number_from (next_cp_id s) (map (career_row u) (getDefaultCareerRecommendations (getSkills s u))).
Proof.
  intros s u up Hne Hu Hup.
  assert (Hg : generateCareerRecommendations (getSkills s u) up
               = map recommendation_to_json (getDefaultCareerRecommendations (getSkills s u)))
    by (destruct Hup as [->|[->| ->]]; reflexivity).
  assert (E : generate_route s u up
              = (Ok200, createManyCareerPaths (deleteAllCareerPathsForUser s u)
                          (map (career_row u) (getDefaultCareerRecommendations (getSkills s u))))).
  { unfold generate_route.
    destruct (getSkills s u) as [|sk sks] eqn:Esk; [contradiction|]. rewrite Hu. simpl negb.
    cbv beta iota. rewrite Hg, <- Esk, traverse_recommendations; [reflexivity|].
    apply getDefaultCareerRecommendations_in. }
  rewrite E. split; [reflexivity|]. simpl snd.
  rewrite (proj1 (createManyCareerPaths_tables _ _)), filter_app.
  change (careerPaths (deleteAllCareerPathsForUser s u))
    with (filter (fun p => negb (String.eqb (cp_userId p) u)) (careerPaths s)).
  change (next_cp_id (deleteAllCareerPathsForUser s u)) with (next_cp_id s).
  rewrite filter_none, filter_all; [reflexivity| |].
  - intros q Hq. destruct (number_from_in _ _ q Hq) as [f [k [Hf [_ ->]]]].
    apply in_map_iff in Hf. destruct Hf as [r [<- _]]. apply String.eqb_refl.
  - intros q Hq. apply filter_In in Hq. destruct Hq as [_ Hq].
    apply negb_true_iff in Hq. exact Hq.
Qed.

(** A completion whose parsed reply yields an empty list (an empty
    [careers] array, or an object with no array-valued property) makes a
    generate request that passes its guards answer [200] after deleting
    the user's career paths and inserting none: the user is left with no
    career path. *)
Theorem generate_route_empty_reply_clears_paths : forall s u up,
  getSkills s u <> [] -> getUser s u = true ->
  generateCareerRecommendations (getSkills s u) up = [] ->
  generate_route s u up = (Ok200, deleteAllCareerPathsForUser s u) /\
  filter (fun p => String.eqb (cp_userId p) u) (careerPaths (snd (generate_route s u up))) = [].
Proof.
  intros s u up Hne Hu Hg.
  assert (E : generate_route s u up = (Ok200, deleteAllCareerPathsForUser s u)).
  { unfold generate_route.
    destruct (getSkills s u) as [|sk sks] eqn:Esk; [contradiction|]. rewrite Hu. simpl negb.
    cbv beta iota. rewrite Hg. reflexivity. }
  split; [exact E|]. rewrite E. apply filter_none. intros q Hq.
  simpl in Hq. apply filter_In in Hq. destruct Hq as [_ Hq].
  apply negb_true_iff in Hq. exact Hq.
Qed.

Lemma generate_route_other_users_paths_witness :
  let s := mkStore ["u"; "v"] [("u", mkSkill "React" "technical" "advanced")]
             [mkCareerPath 1 "u" "Dev" "d" 80 [] [] None None true;
              mkCareerPath 2 "v" "Analyst" "d" 70 [] [] None None true] [] [] 3 1 1 0 in
  "v" <> "u" /\
  filter (fun p => String.eqb (cp_userId p) "v") (careerPaths (snd (generate_route s "u" UNotJson)))
  = [mkCareerPath 2 "v" "Analyst" "d" 70 [] [] None None true].
Proof.
  intros s. assert (H : "v" <> "u") by discriminate. split; [exact H|].
  rewrite (generate_route_other_users_paths s "u" UNotJson "v" H). reflexivity.
Defined.

Lemma generate_route_drops_roadmaps_of_old_paths_witness :
  In (mkRoadmap 1 "u" (Some 1) "Old" None 0) (roadmaps example_store) /\
  ~ In (mkRoadmap 1 "u" (Some 1) "Old" None 0)
      (roadmaps (snd (generate_route example_store "u" UTransportError))) /\
  getRoadmapSteps (snd (generate_route example_store "u" UTransportError)) 1 = [].
Proof.
  assert (Hr : In (mkRoadmap 1 "u" (Some 1) "Old" None 0) (roadmaps example_store))
    by (simpl; auto).
  assert (Hsk : getSkills example_store "u" <> []) by discriminate.
  assert (Ht : tied_to_paths_of example_store "u" (mkRoadmap 1 "u" (Some 1) "Old" None 0)).
  { exists (mkCareerPath 1 "u" "Dev" "d" 80 [] ["JavaScript"; "React"; "SQL"] None None false).
    simpl. auto. }
  destruct (generate_route_drops_roadmaps_of_old_paths example_store "u" UTransportError _
              Hsk eq_refl Hr) as [Hiff Hsteps].
  split; [exact Hr|]. split; [intros Hin; exact (proj1 Hiff Hin Ht)|exact (Hsteps Ht)].
Defined.

Lemma generate_route_resets_dashboard_witness :
  dashboard_stats example_store "u" = (Ok200, mkStats 1 1) /\
  dashboard_stats (snd (generate_route example_store "u" UTransportError)) "u"
  = (Ok200, mkStats 0 0).
Proof.
  split; [vm_compute; reflexivity|].
  apply generate_route_resets_dashboard; [discriminate|reflexivity|].
  intros r Hr Hru. simpl in Hr. destruct Hr as [<-|[<-|[]]]; [|discriminate Hru].
  exists (mkCareerPath 1 "u" "Dev" "d" 80 [] ["JavaScript"; "React"; "SQL"] None None false).
  simpl. auto.
Defined.

Lemma generate_route_fallback_rows_witness :
  fst (generate_route example_store "u" UTransportError) = Ok200 /\
  map cp_title (filter (fun p => String.eqb (cp_userId p) "u")
                  (careerPaths (snd (generate_route example_store "u" UTransportError))))
  = ["Full-Stack Developer"].
Proof.
  destruct (generate_route_fallback_rows example_store "u" UTransportError
              ltac:(discriminate) eq_refl (or_introl eq_refl)) as [Hok Hrows].
  split; [exact Hok|]. rewrite Hrows. reflexivity.
Defined.

Lemma generate_route_empty_reply_clears_paths_witness :
  generateCareerRecommendations (getSkills example_store "u")
    (UJson (JObj [("careers", JArr [])])) = [] /\
  filter (fun p => String.eqb (cp_userId p) "u")
    (careerPaths (snd (generate_route example_store "u" (UJson (JObj [("careers", JArr [])])))))
  = [].
Proof.
  assert (H : generateCareerRecommendations (getSkills example_store "u")
                (UJson (JObj [("careers", JArr [])])) = []) by reflexivity.
  split; [exact H|].
  exact (proj2 (generate_route_empty_reply_clears_paths example_store "u" _
                  ltac:(discriminate) eq_refl H)).
Defined.

(** ** The select endpoint *)

(** The primary key of [roadmaps] on top of [roadmaps_wf]. *)
Definition roadmap_keys_wf (s : Store) : Prop :=
  roadmaps_wf s /\ NoDup (map rm_id (roadmaps s)).

Lemma step_rows_new : forall rid n i steps st,
  In st (number_from n (step_rows rid i steps)) ->
  st_roadmapId st = rid /\ st_isCompleted st = Some false.
Proof.
  intros rid n i steps. revert n i.
  induction steps as [|sd steps IH]; intros n i st H; simpl in H; [destruct H|].
  destruct H as [<-|H]; [split; reflexivity|]. exact (IH _ _ st H).
Qed.

Lemma roadmaps_wf_steps_below : forall s st,
  roadmaps_wf s -> In st (roadmapSteps s) -> st_roadmapId st < next_rm_id s.
Proof.
  intros s st [Hlt Hfk] Hst. destruct (Hfk st Hst) as [r [Hr <-]]. exact (Hlt r Hr).
Qed.

Lemma createManyRoadmapSteps_spec : forall s rows,
  careerPaths (snd (createManyRoadmapSteps s rows)) = careerPaths s /\
  roadmaps (snd (createManyRoadmapSteps s rows)) = roadmaps s /\
  next_cp_id (snd (createManyRoadmapSteps s rows)) = next_cp_id s /\
  next_rm_id (snd (createManyRoadmapSteps s rows)) = next_rm_id s /\
  roadmapSteps (snd (createManyRoadmapSteps s rows))
  = roadmapSteps s ++ (if fst (createManyRoadmapSteps s rows)
                       then number_from (next_st_id s) rows else []).
Proof.
  intros s [|r rows]; unfold createManyRoadmapSteps; cbv zeta.
  - simpl. rewrite app_nil_r. repeat split.
  - destruct (find _ _); simpl; [rewrite app_nil_r|]; repeat split.
Qed.

(** A select request either answers [404] and changes nothing, or writes
    the selection, deletes the user's roadmaps with their steps, and then
    adds at most one roadmap of the user, with the next roadmap id, and
    steps of that roadmap only, none completed. *)
Lemma select_route_shape : forall s u c up,
  select_route s u c up = (Err404, s) \/
  ((exists cp, getCareerPath s c = Some cp /\ cp_userId cp = u) /\
   exists newrs newsts,
     careerPaths (snd (select_route s u c up)) = careerPaths (selectCareerPath s u c) /\
     roadmaps (snd (select_route s u c up)) = roadmaps (deleteRoadmapsForUser s u) ++ newrs /\
     roadmapSteps (snd (select_route s u c up))
     = roadmapSteps (deleteRoadmapsForUser s u) ++ newsts /\
     ((newrs = [] /\ newsts = [] /\ next_rm_id (snd (select_route s u c up)) = next_rm_id s) \/
      (exists r, newrs = [r] /\ rm_userId r = u /\ rm_id r = next_rm_id s /\
         rm_careerPathId r = Some c /\
         next_rm_id (snd (select_route s u c up)) = S (next_rm_id s))) /\
     (forall st, In st newsts ->
        st_roadmapId st = next_rm_id s /\ st_isCompleted st = Some false) /\
     next_cp_id (snd (select_route s u c up)) = next_cp_id s).
Proof.
  intros s u c up. unfold select_route.
  destruct (getCareerPath s c) as [cp|] eqn:Hcp; [|left; reflexivity].
  destruct (String.eqb (cp_userId cp) u) eqn:Hown; cbn [negb]; cbv beta iota;
    [|left; reflexivity].
  right. split; [exists cp; split; [reflexivity|apply String.eqb_eq; exact Hown]|].
  destruct (roadmap_header _) as [[t d]|]; cbv beta iota.
  - unfold createRoadmap. cbv zeta beta iota.
    destruct (roadmap_steps_of _) as [steps|]; cbv beta iota.
    + match goal with |- context [createManyRoadmapSteps ?S3 ?rw] =>
        pose proof (createManyRoadmapSteps_spec S3 rw) as Hsp;
        destruct (createManyRoadmapSteps S3 rw) as [ok s4] eqn:Ec end.
      cbn [fst snd] in Hsp. destruct Hsp as [Hc [Hr [Hcp' [Hrm Hs]]]].
      exists [mkRoadmap (next_rm_id s) u (Some c) t d (now s)],
        (if ok then number_from (next_st_id s) (step_rows (next_rm_id s) 0 steps) else []).
      cbn [snd].
      split; [rewrite Hc; reflexivity|].
      split; [rewrite Hr; reflexivity|].
      split; [rewrite Hs; reflexivity|].
      split; [right; eexists; split; [reflexivity|];
              repeat split; rewrite Hrm; reflexivity|].
      split; [|rewrite Hcp'; reflexivity].
      intros st Hst. destruct ok; [exact (step_rows_new _ _ _ _ st Hst)|destruct Hst].
    + exists [mkRoadmap (next_rm_id s) u (Some c) t d (now s)], [].
      simpl. rewrite app_nil_r.
      split; [reflexivity|]. split; [reflexivity|]. split; [reflexivity|].
      split; [right; eexists; split; [reflexivity|]; repeat split|].
      split; [intros st []|reflexivity].
  - exists [], []. simpl. rewrite !app_nil_r.
    split; [reflexivity|]. split; [reflexivity|]. split; [reflexivity|].
    split; [left; repeat split|]. split; [intros st []|reflexivity].
Qed.

(** A character [parseInt] reads as a decimal digit. *)
Definition is_digit (c : ascii) : bool :=
  match digit_value 10 c with Some _ => true | None => false end.

(** The value of a string made of decimal digits only ([None] otherwise),
    read after [acc]. *)
Fixpoint decimal_digits (acc : Z) (s : string) : option Z :=
  match s with
  | EmptyString => Some acc
  | String c s' =>
      match digit_value 10 c with
      | Some d => decimal_digits (acc * 10 + d)%Z s'
      | None => None
      end
  end.

(** A rest that ends a decimal number: empty, or starting with a character
    that is neither a digit nor the [x] of a hexadecimal prefix. *)
Definition ends_number (r : string) : bool :=
  match r with
  | EmptyString => true
  | String c _ => negb (is_digit c) && negb (Ascii.eqb c "x"%char) && negb (Ascii.eqb c "X"%char)
  end.

Lemma digit_char : forall c dv,
  digit_value 10 c = Some dv ->
  (0 <= dv)%Z /\ js_space c = false /\ Ascii.eqb c "-"%char = false /\
  Ascii.eqb c "+"%char = false /\ Ascii.eqb c "x"%char = false /\ Ascii.eqb c "X"%char = false.
Proof.
  intros c dv H.
  destruct c as [[] [] [] [] [] [] [] []]; vm_compute in H; try discriminate H;
    (injection H as <-; split; [lia|repeat split]).
Qed.

Lemma not_digit_zero : forall c, is_digit c = false -> Ascii.eqb c "0"%char = false.
Proof.
  intros c H. destruct (Ascii.eqb_spec c "0"%char) as [->|]; [discriminate H|reflexivity].
Qed.

Lemma not_digit_value : forall c, is_digit c = false -> digit_value 10 c = None.
Proof. intros c H. unfold is_digit in H. destruct (digit_value 10 c); [discriminate H|reflexivity]. Qed.

Lemma decimal_digits_nonneg : forall s acc n,
  (0 <= acc)%Z -> decimal_digits acc s = Some n -> (0 <= n)%Z.
Proof.
  induction s as [|c s IH]; intros acc n Ha H; simpl in H.
  - injection H as <-. exact Ha.
  - destruct (digit_value 10 c) as [dv|] eqn:E; [|discriminate H].
    destruct (digit_char c dv E) as [Hd _]. apply (IH (acc * 10 + dv)%Z); [lia|exact H].
Qed.

Lemma read_radix_decimal : forall d r acc any n,
  decimal_digits acc d = Some n -> ends_number r = true -> (d <> "" \/ any = true) ->
  read_radix_digits 10 acc any (String.append d r) = Some n.
Proof.
  induction d as [|c d IH]; intros r acc any n Hn Hr Hany; simpl in Hn.
  - injection Hn as <-. destruct Hany as [H| ->]; [contradiction|]. simpl.
    destruct r as [|c r]; [reflexivity|]. simpl in Hr.
    destruct (is_digit c) eqn:Ed; [discriminate Hr|]. simpl.
    rewrite (not_digit_value c Ed). reflexivity.
  - destruct (digit_value 10 c) as [dv|] eqn:E; [|discriminate Hn]. simpl. rewrite E.
    apply IH; [exact Hn|exact Hr|right; reflexivity].
Qed.

Lemma append_first_char : forall d r c rest acc n,
  decimal_digits acc d = Some n -> ends_number r = true ->
  String.append d r = String c rest ->
  Ascii.eqb c "x"%char = false /\ Ascii.eqb c "X"%char = false.
Proof.
  intros [|c0 d] r c rest acc n Hn Hr E; simpl in E.
  - subst r. simpl in Hr. apply andb_true_iff in Hr. destruct Hr as [Hr HX].
    apply andb_true_iff in Hr. destruct Hr as [_ Hx].
    apply negb_true_iff in Hx, HX. split; assumption.
  - injection E as <- _. simpl in Hn. destruct (digit_value 10 c0) as [dv|] eqn:Ed;
      [|discriminate Hn].
    destruct (digit_char c0 dv Ed) as [_ [_ [_ [_ [Hx HX]]]]]. split; assumption.
Qed.

(** [parseInt] of a decimal number followed by a rest that ends it. *)
Lemma js_parseInt_decimal : forall d r n,
  d <> "" -> decimal_digits 0 d = Some n -> ends_number r = true ->
  js_parseInt (String.append d r) = Some n.
Proof.
  intros d r n Hd Hn Hr. destruct d as [|c d']; [contradiction|].
  pose proof (read_radix_decimal (String c d') r 0 false n Hn Hr (or_introl Hd)) as HR.
  simpl in Hn. destruct (digit_value 10 c) as [dv|] eqn:Ec; [|discriminate Hn].
  destruct (digit_char c dv Ec) as [_ [Hs [Hm [Hp _]]]].
  unfold js_parseInt. cbn [String.append trim_start]. rewrite Hs, Hm, Hp.
  cbn [String.append] in HR.
  destruct (String.append d' r) as [|c2 rest] eqn:E.
  - cbv beta iota. rewrite HR. reflexivity.
  - destruct (append_first_char d' r c2 rest _ _ Hn Hr E) as [Hx HX].
    rewrite Hx, HX, andb_false_r. cbv beta iota. rewrite HR. reflexivity.
Qed.

(** [parseInt] of a string that starts with a character other than white
    space, a sign or a digit is [NaN]. *)
Lemma js_parseInt_nan : forall c t,
  js_space c = false -> is_digit c = false -> c <> "-"%char -> c <> "+"%char ->
  js_parseInt (String c t) = None.
Proof.
  intros c t Hs Hd Hm Hp. unfold js_parseInt. cbn [trim_start]. rewrite Hs.
  destruct (Ascii.eqb_spec c "-"%char) as [|_]; [contradiction|].
  destruct (Ascii.eqb_spec c "+"%char) as [|_]; [contradiction|].
  destruct t as [|c1 t]; rewrite ?(not_digit_zero c Hd); cbn [andb];
    cbv beta iota; cbn [read_radix_digits]; rewrite (not_digit_value c Hd); reflexivity.
Qed.

(** A select request for a career path that does not exist or that
    another user owns answers [404] and changes nothing: no user can
    select, or regenerate a roadmap from, a path that is not theirs. This
    holds for an id parameter that is a decimal number below [2^31]
    (possibly followed by a rest [parseInt] ignores); a larger number
    answers [500] (the [integer] parameter overflows), and so does a
    parameter that is not a number at all ([NaN]); both change nothing. *)
Theorem select_request_rejects_foreign_path : forall s u up,
  (forall d r n,
     d <> "" -> decimal_digits 0 d = Some n -> ends_number r = true ->
     ((n < 2147483648)%Z ->
        (getCareerPath s (Z.to_nat n) = None \/
         exists p, getCareerPath s (Z.to_nat n) = Some p /\ cp_userId p <> u) ->
        select_request s u (String.append d r) up = (Err404, s)) /\
     ((2147483648 <= n)%Z -> select_request s u (String.append d r) up = (Err500, s))) /\
  (forall c t,
     js_space c = false -> is_digit c = false -> c <> "-"%char -> c <> "+"%char ->
     select_request s u (String c t) up = (Err500, s)).
Proof.
  intros s u up. split.
  - intros d r n Hd Hn Hr.
    pose proof (decimal_digits_nonneg d 0 n (Z.le_refl 0) Hn) as H0.
    unfold select_request. rewrite (js_parseInt_decimal d r n Hd Hn Hr). split.
    + intros Hlt H. unfold int4_range.
      rewrite (proj2 (Z.leb_le _ _)) by lia. rewrite (proj2 (Z.ltb_lt _ _)) by lia.
      rewrite (proj2 (Z.ltb_ge _ _)) by lia. cbn [andb negb].
      unfold select_route. destruct H as [H|[p [H Hp]]]; rewrite H; [reflexivity|].
      apply String.eqb_neq in Hp. rewrite Hp. reflexivity.
    + intros Hge. unfold int4_range.
      rewrite (proj2 (Z.leb_le _ _)) by lia. rewrite (proj2 (Z.ltb_ge n _)) by lia.
      reflexivity.
  - intros c t Hs Hd Hm Hp. unfold select_request.
    rewrite (js_parseInt_nan c t Hs Hd Hm Hp). reflexivity.
Qed.

Lemma roadmap_header_none : forall v,
  v = JNull \/ get v "title" = Undefined \/ get v "title" = Defined JNull ->
  roadmap_header (inl v) = None.
Proof.
  intros v H. destruct v; cbv beta iota delta [roadmap_header]; try reflexivity;
    destruct H as [H|[H|H]]; try discriminate H; rewrite H; reflexivity.
Qed.

Lemma param_text_str : forall t, has_nul t = false -> param_text (JStr t) = Some t.
Proof. intros t H. unfold param_text. simpl. rewrite H. reflexivity. Qed.

Lemma roadmap_header_title : forall v t,
  get v "title" = Defined (JStr t) -> has_nul t = false ->
  (get v "description" = Undefined \/ get v "description" = Defined JNull \/
   exists dd, get v "description" = Defined (JStr dd) /\ has_nul dd = false) ->
  exists d, roadmap_header (inl v) = Some (t, d).
Proof.
  intros v t Ht Hn Hd. destruct v; [discriminate Ht| | | | |];
    cbv beta iota delta [roadmap_header]; rewrite Ht;
    cbn [text_col]; rewrite (param_text_str t Hn); cbn [bind_opt];
    (destruct Hd as [Hd|[Hd|[dd [Hd Hdn]]]]; rewrite Hd;
     cbn [nullable_text_col]; [| |rewrite (param_text_str dd Hdn)];
     cbn [option_map bind_opt]; eexists; reflexivity).
Qed.

Lemma roadmap_steps_of_none : forall v,
  (forall xs, get v "steps" <> Defined (JArr xs)) -> roadmap_steps_of (inl v) = None.
Proof.
  intros v H. unfold roadmap_steps_of.
  destruct (get v "steps") as [[| | | |xs|]| |]; try reflexivity.
  exfalso. exact (H xs eq_refl).
Qed.

Lemma select_route_owned : forall s u c up cp,
  getCareerPath s c = Some cp -> cp_userId cp = u ->
  select_route s u c up =
  match roadmap_header (generateRoadmap cp (getSkills s u) up) with
  | None => (Err500, deleteRoadmapsForUser (selectCareerPath s u c) u)
  | Some (title, description) =>
      match roadmap_steps_of (generateRoadmap cp (getSkills s u) up) with
      | None => (Err500, snd (createRoadmap (deleteRoadmapsForUser (selectCareerPath s u c) u)
                                u (Some c) title description))
      | Some steps =>
          let (ok, s4) :=
            createManyRoadmapSteps
              (snd (createRoadmap (deleteRoadmapsForUser (selectCareerPath s u c) u)
                      u (Some c) title description))
              (step_rows (next_rm_id s) 0 steps) in
          (if ok then Ok200 else Err500, s4)
      end
  end.
Proof.
  intros s u c up cp Hcp Hown. unfold select_route. rewrite Hcp, Hown, String.eqb_refl.
  reflexivity.
Qed.

(** The select request is not atomic. When the roadmap content has no
    [title] (a [null] reply, a reply without [title] or with a [null]
    one), it answers [500] after the selection was written and the user's
    roadmaps were deleted: the user is left with the new selection and no
    roadmap. When the title is a string and the description a string,
    [null] or absent, but [steps] is not an array, it answers [500] after
    also inserting the roadmap: the user's current roadmap is then that
    new roadmap, with no step. *)
Theorem select_route_partial_failure : forall s u c v cp,
  getCareerPath s c = Some cp -> cp_userId cp = u ->
  ((v = JNull \/ get v "title" = Undefined \/ get v "title" = Defined JNull) ->
     select_route s u c (UJson v)
     = (Err500, deleteRoadmapsForUser (selectCareerPath s u c) u) /\
     careerPaths (snd (select_route s u c (UJson v))) = careerPaths (selectCareerPath s u c) /\
     getRoadmap (snd (select_route s u c (UJson v))) u = None) /\
  (forall t,
     get v "title" = Defined (JStr t) -> has_nul t = false ->
     (get v "description" = Undefined \/ get v "description" = Defined JNull \/
      exists dd, get v "description" = Defined (JStr dd) /\ has_nul dd = false) ->
     (forall xs, get v "steps" <> Defined (JArr xs)) ->
     roadmaps_wf s ->
     fst (select_route s u c (UJson v)) = Err500 /\
     careerPaths (snd (select_route s u c (UJson v))) = careerPaths (selectCareerPath s u c) /\
     exists r, getRoadmap (snd (select_route s u c (UJson v))) u = Some (r, []) /\
       rm_title r = t /\ rm_careerPathId r = Some c).
Proof.
  intros s u c v cp Hcp Hown.
  rewrite (select_route_owned s u c (UJson v) cp Hcp Hown). cbn [generateRoadmap].
  split.
  - intros Hv. rewrite (roadmap_header_none v Hv). split; [reflexivity|].
    split; [reflexivity|].
    unfold getRoadmap. simpl. rewrite filter_none; [reflexivity|].
    intros r Hr. apply filter_In in Hr. destruct Hr as [_ Hr].
    apply negb_true_iff in Hr. exact Hr.
  - intros t Ht Hn Hd Hs Hwf.
    destruct (roadmap_header_title v t Ht Hn Hd) as [d Hh]. rewrite Hh.
    rewrite (roadmap_steps_of_none v Hs). unfold createRoadmap.
    simpl fst. simpl snd. split; [reflexivity|]. split; [reflexivity|].
    exists (mkRoadmap (next_rm_id s) u (Some c) t d (now s)).
    split; [|split; reflexivity].
    unfold getRoadmap. simpl roadmaps. rewrite filter_app, filter_none.
    + simpl. rewrite String.eqb_refl. simpl. f_equal. f_equal.
      unfold getRoadmapSteps. simpl. rewrite filter_none; [reflexivity|].
      intros st Hst. apply filter_In in Hst. destruct Hst as [Hst _].
      apply Nat.eqb_neq. pose proof (roadmaps_wf_steps_below s st Hwf Hst). lia.
    + intros r Hr. apply filter_In in Hr. destruct Hr as [_ Hr].
      apply negb_true_iff in Hr. exact Hr.
Qed.

Lemma filter_keep {A : Type} (f g : A -> bool) : forall l,
  (forall x, In x l -> f x = true -> g x = true) -> filter f (filter g l) = filter f l.
Proof.
  induction l as [|x l IH]; intros H; simpl; [reflexivity|].
  destruct (f x) eqn:Ef.
  - rewrite (H x (or_introl eq_refl) Ef). simpl. rewrite Ef, IH; [reflexivity|].
    intros y Hy. apply H. right. exact Hy.
  - destruct (g x); simpl; [rewrite Ef|]; apply IH; intros y Hy; apply H; right; exact Hy.
Qed.

Lemma NoDup_map_eq {A B : Type} (f : A -> B) : forall l x y,
  NoDup (map f l) -> In x l -> In y l -> f x = f y -> x = y.
Proof.
  induction l as [|z l IH]; intros x y Hnd Hx Hy Heq; [destruct Hx|].
  simpl in Hnd. inversion Hnd as [|? ? Hnot Hnd']; subst.
  destruct Hx as [<-|Hx]; destruct Hy as [<-|Hy]; try reflexivity.
  - exfalso. apply Hnot. rewrite Heq. apply in_map. exact Hy.
  - exfalso. apply Hnot. rewrite <- Heq. apply in_map. exact Hx.
  - exact (IH x y Hnd' Hx Hy Heq).
Qed.

Lemma NoDup_map_filter {A B : Type} (f : A -> B) (g : A -> bool) : forall l,
  NoDup (map f l) -> NoDup (map f (filter g l)).
Proof.
  induction l as [|x l IH]; intros H; simpl; [constructor|].
  simpl in H. inversion H as [|? ? Hnot Hnd]; subst.
  destruct (g x); simpl; [|exact (IH Hnd)].
  constructor; [|exact (IH Hnd)]. intros Hin. apply Hnot.
  apply in_map_iff in Hin. destruct Hin as [y [Hy Hin]]. rewrite <- Hy.
  apply in_map. apply filter_In in Hin. exact (proj1 Hin).
Qed.

Lemma newest_spec : forall l b,
  In (newest b l) (b :: l) /\
  (forall r, In r (b :: l) -> rm_createdAt r <= rm_createdAt (newest b l)).
Proof.
  induction l as [|r l IH]; intros b; simpl.
  - split; [left; reflexivity|]. intros r [<-|[]]. lia.
  - destruct (IH (if Nat.ltb (rm_createdAt b) (rm_createdAt r) then r else b)) as [Hin Hmax].
    destruct (Nat.ltb (rm_createdAt b) (rm_createdAt r)) eqn:E.
    + apply Nat.ltb_lt in E. split.
      * destruct Hin as [<-|Hin]; auto.
      * intros x [<-|[<-|Hx]];
          [pose proof (Hmax r (or_introl eq_refl)); lia
          |exact (Hmax r (or_introl eq_refl))
          |exact (Hmax x (or_intror Hx))].
    + apply Nat.ltb_ge in E. split.
      * destruct Hin as [<-|Hin]; auto.
      * intros x [<-|[<-|Hx]];
          [exact (Hmax b (or_introl eq_refl))
          |pose proof (Hmax b (or_introl eq_refl)); lia
          |exact (Hmax x (or_intror Hx))].
Qed.

(** After a select request answers [200], the dashboard of the user counts
    the steps of the freshly generated roadmap, none of them completed:
    progress on the previous roadmap is gone. With the template (the
    completion call failed) that is [9] steps. *)
Theorem select_route_ok_dashboard : forall s u c up s',
  roadmaps_wf s -> select_route s u c up = (Ok200, s') ->
  exists cp steps,
    getCareerPath s c = Some cp /\
    roadmap_steps_of (generateRoadmap cp (getSkills s u) up) = Some steps /\
    dashboard_stats s' u = (Ok200, mkStats 0 (length steps)) /\
    (up = UTransportError \/ up = UNoContent \/ up = UNotJson -> length steps = 9).
Proof.
  intros s u c up s' Hwf H.
  destruct (getCareerPath s c) as [cp|] eqn:Hcp;
    [|unfold select_route in H; rewrite Hcp in H; discriminate H].
  destruct (String.eqb (cp_userId cp) u) eqn:Hown;
    [|unfold select_route in H; rewrite Hcp, Hown in H; discriminate H].
  apply String.eqb_eq in Hown. rewrite (select_route_owned s u c up cp Hcp Hown) in H.
  destruct (roadmap_header _) as [[t d]|]; [|discriminate H].
  destruct (roadmap_steps_of _) as [steps|] eqn:Hst; [|discriminate H].
  set (s3 := snd (createRoadmap (deleteRoadmapsForUser (selectCareerPath s u c) u)
                    u (Some c) t d)) in H.
  destruct (createManyRoadmapSteps s3 (step_rows (next_rm_id s) 0 steps)) as [ok s4] eqn:Ec.
  destruct ok; [|discriminate H]. injection H as Hs4. subst s4.
  exists cp, steps. split; [reflexivity|]. split; [exact Hst|]. split.
  - destruct (createManyRoadmapSteps_tables _ _ _ Ec) as [Er Es].
    set (R := next_rm_id s) in *.
    set (rows := number_from (next_st_id s) (step_rows R 0 steps)).
    change (next_st_id s3) with (next_st_id s) in Es. fold rows in Es.
    destruct (step_rows_fields R (next_st_id s) 0 steps) as [_ [_ Hrp]]. fold rows in Hrp.
    assert (Hnew : getRoadmapSteps s' R = rows).
    { unfold getRoadmapSteps. rewrite Es, filter_app, (filter_none _ (roadmapSteps s3)),
        filter_all.
      - unfold sort_by_order. apply sort_step_rows. intros y [].
      - intros x Hx. apply Nat.eqb_eq. exact (proj1 (step_rows_new _ _ _ _ x Hx)).
      - intros x Hx. apply Nat.eqb_neq. unfold s3 in Hx. simpl in Hx. apply filter_In in Hx.
        destruct Hx as [Hx _]. pose proof (roadmaps_wf_steps_below s x Hwf Hx). unfold R. lia. }
    unfold dashboard_stats, getRoadmap. rewrite Er. unfold s3.
    simpl roadmaps. rewrite filter_app, (filter_none _ (filter _ (roadmaps s))).
    + cbn [app filter rm_userId]. rewrite String.eqb_refl. cbv beta iota.
      cbn [newest rm_id]. fold R. rewrite Hnew, filter_none.
      * rewrite <- Hrp, length_map. reflexivity.
      * intros x Hx. unfold is_completed. rewrite (proj2 (step_rows_new _ _ _ _ x Hx)).
        reflexivity.
    + intros r Hr. apply filter_In in Hr. destruct Hr as [_ Hr].
      apply negb_true_iff in Hr. exact Hr.
  - intros Hup. destruct Hup as [->|[->| ->]]; simpl in Hst; injection Hst as <-; reflexivity.
Qed.

(** A select request by one user never changes what another user sees as
    their current roadmap and its steps, nor their dashboard, whatever
    it answers (on a store whose roadmap ids are unique and whose steps
    reference existing roadmaps). *)
Theorem select_route_other_user_roadmap : forall s u v c up,
  roadmap_keys_wf s -> v <> u ->
  getRoadmap (snd (select_route s u c up)) v = getRoadmap s v /\
  dashboard_stats (snd (select_route s u c up)) v = dashboard_stats s v.
Proof.
  intros s u v c up [Hwf Hnd] Hvu.
  assert (Hg : getRoadmap (snd (select_route s u c up)) v = getRoadmap s v).
  { destruct (select_route_shape s u c up) as [E|[_ [newrs [newsts [_ [Hr [Hs [Hn [Hnew _]]]]]]]]];
      [rewrite E; reflexivity|].
    set (s' := snd (select_route s u c up)) in *.
    assert (Hfv : filter (fun r => String.eqb (rm_userId r) v) (roadmaps s')
                  = filter (fun r => String.eqb (rm_userId r) v) (roadmaps s)).
    { rewrite Hr, filter_app.
      change (roadmaps (deleteRoadmapsForUser s u))
        with (filter (fun r => negb (String.eqb (rm_userId r) u)) (roadmaps s)).
      rewrite filter_keep.
      - destruct Hn as [[-> _]|[r [-> [Hru _]]]]; simpl; [apply app_nil_r|].
        rewrite Hru, (proj2 (String.eqb_neq u v)) by congruence. apply app_nil_r.
      - intros x _ Hx. apply String.eqb_eq in Hx. apply negb_true_iff, String.eqb_neq.
        congruence. }
    unfold getRoadmap. rewrite Hfv.
    destruct (filter (fun r => String.eqb (rm_userId r) v) (roadmaps s)) as [|r0 rs] eqn:Ef;
      [reflexivity|].
    destruct (newest_spec rs r0) as [Hb _].
    set (b := newest r0 rs) in *.
    assert (Hbv : In b (roadmaps s) /\ rm_userId b = v).
    { assert (Hb' : In b (filter (fun r => String.eqb (rm_userId r) v) (roadmaps s)))
        by (rewrite Ef; exact Hb).
      apply filter_In in Hb'. destruct Hb' as [Hb1 Hb2]. apply String.eqb_eq in Hb2. auto. }
    destruct Hbv as [Hbin Hbu].
    do 2 f_equal. unfold getRoadmapSteps. f_equal. rewrite Hs, filter_app.
    rewrite (filter_none _ newsts), app_nil_r.
    - change (roadmapSteps (deleteRoadmapsForUser s u))
        with (filter (fun st => negb (existsb (Nat.eqb (st_roadmapId st))
                 (map rm_id (filter (fun r => String.eqb (rm_userId r) u) (roadmaps s)))))
                 (roadmapSteps s)).
      apply filter_keep. intros x _ Hx. apply Nat.eqb_eq in Hx.
      apply negb_true_iff. destruct (existsb _ _) eqn:Ex; [|reflexivity].
      exfalso. apply existsb_exists in Ex. destruct Ex as [i [Hi Hii]].
      apply in_map_iff in Hi. destruct Hi as [r' [Hr'i Hr']]. apply filter_In in Hr'.
      destruct Hr' as [Hr'in Hr'u]. apply String.eqb_eq in Hr'u. apply Nat.eqb_eq in Hii.
      assert (Heq : r' = b) by (apply (NoDup_map_eq rm_id (roadmaps s)); auto; congruence).
      apply Hvu. rewrite <- Hbu, <- Heq. exact Hr'u.
    - intros x Hx. apply Nat.eqb_neq. rewrite (proj1 (Hnew x Hx)).
      pose proof (proj1 Hwf b Hbin). lia. }
  split; [exact Hg|]. unfold dashboard_stats. rewrite Hg. reflexivity.
Qed.


(** ** Patching steps *)

Lemma forallb_none_false : forall (l : list (option json)) v,
  In (Some v) l ->
  forallb (fun o => match o with None => true | Some _ => false end) l = false.
Proof.
  induction l as [|o l IH]; intros v H; [destruct H|].
  destruct H as [->|H]; [reflexivity|]. simpl. rewrite (IH v H). apply andb_false_r.
Qed.

Lemma assoc_none : forall k body, (forall kv, In kv body -> fst kv <> k) -> assoc k body = None.
Proof.
  intros k. induction body as [|[k' v] body IH]; intros H; [reflexivity|]. simpl.
  destruct (String.eqb_spec k k') as [->|_].
  - exfalso. exact (H (k', v) (or_introl eq_refl) eq_refl).
  - apply IH. intros kv Hkv. exact (H kv (or_intror Hkv)).
Qed.

(** The step a PATCH that only sets [isCompleted] writes. *)
Definition with_completed (b : bool) (st : RoadmapStep) : RoadmapStep :=
  mkStep (st_id st) (st_roadmapId st) (st_phase st) (st_title st) (st_description st)
    (st_skills st) (st_duration st) (st_orderIndex st) (Some b).

Lemma bind_patch_completed : forall b,
  bind_patch (isCompleted_only b)
  = Some (mkSet None None None None None None None None (Some (Some b)) None).
Proof. intros []; vm_compute; reflexivity. Qed.

Lemma update_row_completed : forall s b st,
  update_row s (mkSet None None None None None None None None (Some (Some b)) None) st
  = Some (with_completed b st).
Proof. intros s b st. unfold update_row. simpl. rewrite Z.eqb_refl. reflexivity. Qed.

Ltac close_binds :=
  repeat match goal with
         | |- context [match ?x with Some _ => _ | None => None end] =>
             destruct x; [|reflexivity]
         end.

Lemma update_row_title_null : forall s d st,
  set_title d = Some None -> update_row s d st = None.
Proof.
  intros s d st H. unfold update_row, bind_opt. rewrite H. cbn [set_not_null].
  close_binds. reflexivity.
Qed.

Lemma update_row_fk_fail : forall s d st r,
  set_roadmapId d = Some (Some r) -> r <> Z.of_nat (st_roadmapId st) ->
  existsb (fun rr => Z.eqb (Z.of_nat (rm_id rr)) r) (roadmaps s) = false ->
  update_row s d st = None.
Proof.
  intros s d st r H Hne Hex. unfold update_row, bind_opt. rewrite H. cbn [set_not_null].
  rewrite (proj2 (Z.eqb_neq _ _) Hne), Hex. close_binds. reflexivity.
Qed.

(** A written row keeps its roadmap or references an existing one. *)
Lemma update_row_roadmapId : forall s d st st',
  update_row s d st = Some st' ->
  st_roadmapId st' = st_roadmapId st \/
  exists r, In r (roadmaps s) /\ rm_id r = st_roadmapId st'.
Proof.
  intros s d st st' H. unfold update_row, bind_opt in H. cbv beta zeta in H.
  repeat match type of H with
         | context [match ?x with Some _ => _ | None => None end] =>
             let E := fresh "E" in destruct x eqn:E; [|discriminate H]
         end.
  injection H as <-. cbn [st_roadmapId].
  match goal with E : (if Z.eqb ?rid _ then _ else _) = Some ?n |- _ =>
    destruct (Z.eqb rid (Z.of_nat (st_roadmapId st))); [injection E as <-; left; reflexivity|];
    destruct (existsb _ (roadmaps s)) eqn:Ex; [|discriminate E];
    injection E as <-; right;
    apply existsb_exists in Ex; destruct Ex as [rr [Hrr Heq]]; apply Z.eqb_eq in Heq;
    exists rr; split; [exact Hrr|rewrite <- Heq, Nat2Z.id; reflexivity]
  end.
Qed.

Lemma ids_unique_NoDup : forall l, NoDup (map st_id l) -> ids_unique l = true.
Proof.
  induction l as [|st l IH]; intros H; [reflexivity|]. simpl in H |- *.
  inversion H as [|? ? Hnot Hnd]; subst. rewrite (IH Hnd), andb_true_r.
  apply negb_true_iff. destruct (existsb _ l) eqn:Ex; [|reflexivity]. exfalso.
  apply existsb_exists in Ex. destruct Ex as [o [Ho Heq]]. apply Z.eqb_eq in Heq.
  apply Hnot. rewrite <- Heq. apply in_map. exact Ho.
Qed.

Lemma traverse_opt_some {A B : Type} (f : A -> option B) (g : A -> B) : forall l,
  (forall x, In x l -> f x = Some (g x)) -> traverse_opt f l = Some (map g l).
Proof.
  induction l as [|x l IH]; intros H; [reflexivity|]. simpl.
  rewrite (H x (or_introl eq_refl)). cbn [bind_opt].
  rewrite IH; [reflexivity|]. intros y Hy. exact (H y (or_intror Hy)).
Qed.

Lemma patch_param_decimal : forall d r n,
  d <> "" -> decimal_digits 0 d = Some n -> ends_number r = true ->
  js_parseInt (String.append d r) = Some n /\
  int4_range n = (n <? 2147483648)%Z.
Proof.
  intros d r n Hd Hn Hr. split; [exact (js_parseInt_decimal d r n Hd Hn Hr)|].
  pose proof (decimal_digits_nonneg d 0 n (Z.le_refl 0) Hn).
  unfold int4_range. rewrite (proj2 (Z.leb_le _ _)) by lia. reflexivity.
Qed.

Lemma bind_patch_fields : forall body dd,
  bind_patch body = Some dd ->
  bind_entry int4_value (pa_roadmapId body) = Some (set_roadmapId dd) /\
  bind_entry param_text (pa_title body) = Some (set_title dd).
Proof.
  intros body dd Eb. unfold bind_patch, bind_opt in Eb.
  repeat match type of Eb with
         | context [match ?x with Some _ => _ | None => None end] =>
             let E := fresh "E" in destruct x eqn:E; [|discriminate Eb]
         end.
  injection Eb as <-. split; reflexivity.
Qed.

(** A PATCH request past [bind_patch] and [parseInt], for an id in range. *)
Lemma patch_step_route_id : forall s d r n body,
  d <> "" -> decimal_digits 0 d = Some n -> ends_number r = true -> (n < 2147483648)%Z ->
  patch_step_route s (String.append d r) body =
  if forallb (fun o => match o with None => true | Some _ => false end) (patch_columns body)
  then (Err500, s) else
  match bind_patch body with
  | None => (Err500, s)
  | Some dd =>
      match updateRoadmapStep s n dd with
      | None => (Err500, s)
      | Some (None, s') => (Err404, s')
      | Some (Some _, s') => (Ok200, s')
      end
  end.
Proof.
  intros s d r n body Hd Hn Hr Hlt. destruct (patch_param_decimal d r n Hd Hn Hr) as [Hp Hi].
  unfold patch_step_route. rewrite Hp, Hi, (proj2 (Z.ltb_lt _ _) Hlt). reflexivity.
Qed.

(** The statuses of [PATCH /api/roadmap-steps/:id]. It answers [500] and
    changes nothing for a body with no key that names a column (an empty
    body included), for a [createdAt] other than [null], for an id
    parameter that is not a number ([NaN]) or is a number of [2^31] or
    more; for an existing step, it answers [500] and changes nothing when
    the body sets [title] to [null], or sets [roadmapId] to an integer
    that is no roadmap's id. A body that only sets [isCompleted] to a
    boolean answers [404] when no step has the id, and otherwise [200]
    after setting [isCompleted] on the steps with that id and nothing
    else (on a store whose step ids are unique). *)
Theorem patch_step_route_status : forall s,
  (forall p body,
     (forall kv, In kv body -> ~ In (fst kv) ["id"; "roadmapId"; "phase"; "title";
        "description"; "skills"; "duration"; "orderIndex"; "isCompleted"; "createdAt"]) ->
     patch_step_route s p (patch_of_body body) = (Err500, s)) /\
  (forall p body v,
     pa_createdAt body = Some v -> v <> JNull -> patch_step_route s p body = (Err500, s)) /\
  (forall c t body,
     js_space c = false -> is_digit c = false -> c <> "-"%char -> c <> "+"%char ->
     patch_step_route s (String c t) body = (Err500, s)) /\
  (forall d r n body,
     d <> "" -> decimal_digits 0 d = Some n -> ends_number r = true ->
     (2147483648 <= n)%Z -> patch_step_route s (String.append d r) body = (Err500, s)) /\
  (forall d r n body,
     d <> "" -> decimal_digits 0 d = Some n -> ends_number r = true -> (n < 2147483648)%Z ->
     (exists st, In st (roadmapSteps s) /\ st_id st = n) ->
     (pa_title body = Some JNull \/
      (roadmaps_wf s /\
       exists v rid, pa_roadmapId body = Some v /\ int4_value v = Some rid /\
         forall rm, In rm (roadmaps s) -> Z.of_nat (rm_id rm) <> rid)) ->
     patch_step_route s (String.append d r) body = (Err500, s)) /\
  (forall d r n b,
     d <> "" -> decimal_digits 0 d = Some n -> ends_number r = true -> (n < 2147483648)%Z ->
     ((forall st, In st (roadmapSteps s) -> st_id st <> n) ->
        patch_step_route s (String.append d r) (isCompleted_only b) = (Err404, s)) /\
     (NoDup (map st_id (roadmapSteps s)) ->
      (exists st, In st (roadmapSteps s) /\ st_id st = n) ->
        patch_step_route s (String.append d r) (isCompleted_only b)
        = (Ok200, with_steps s (map (fun st => if Z.eqb (st_id st) n then with_completed b st
                                               else st) (roadmapSteps s))))).
Proof.
  intros s. split; [|split; [|split; [|split; [|split]]]].
  - intros p body Hb. unfold patch_step_route.
    assert (Ha : forall k, In k ["id"; "roadmapId"; "phase"; "title"; "description";
                   "skills"; "duration"; "orderIndex"; "isCompleted"; "createdAt"] ->
                   assoc k body = None).
    { intros k Hk. apply assoc_none. intros kv Hkv E. apply (Hb kv Hkv). rewrite E. exact Hk. }
    replace (patch_columns (patch_of_body body)) with
      (repeat (@None json) 10); [reflexivity|].
    unfold patch_columns, patch_of_body. cbn [pa_id pa_roadmapId pa_phase pa_title
      pa_description pa_skills pa_duration pa_orderIndex pa_isCompleted pa_createdAt].
    rewrite !Ha by (simpl; tauto). reflexivity.
  - intros p body v Hc Hv. unfold patch_step_route.
    rewrite (forallb_none_false _ v) by (unfold patch_columns; rewrite Hc; simpl; tauto).
    replace (bind_patch body) with (@None StepSet); [reflexivity|].
    unfold bind_patch, bind_opt. rewrite Hc. unfold bind_entry at 10.
    destruct v; try (exfalso; exact (Hv eq_refl));
      cbn [option_map]; close_binds; reflexivity.
  - intros c t body Hs Hd Hm Hp. unfold patch_step_route.
    rewrite (js_parseInt_nan c t Hs Hd Hm Hp).
    destruct (forallb _ _); [reflexivity|]. destruct (bind_patch body); reflexivity.
  - intros d r n body Hd Hn Hr Hge. unfold patch_step_route.
    destruct (patch_param_decimal d r n Hd Hn Hr) as [Hp Hi].
    rewrite Hp, Hi, (proj2 (Z.ltb_ge _ _) Hge).
    destruct (forallb _ _); [reflexivity|]. destruct (bind_patch body); reflexivity.
  - intros d r n body Hd Hn Hr Hlt [st [Hst Hid]] Hcase.
    rewrite (patch_step_route_id s d r n body Hd Hn Hr Hlt).
    destruct (forallb _ _); [reflexivity|].
    destruct (bind_patch body) as [dd|] eqn:Eb; [|reflexivity].
    unfold updateRoadmapStep.
    destruct (find (fun st => Z.eqb (st_id st) n) (roadmapSteps s)) as [st0|] eqn:Ef.
    2:{ exfalso. pose proof (find_none _ _ Ef st Hst) as Hn0. simpl in Hn0.
        rewrite Hid, Z.eqb_refl in Hn0. discriminate Hn0. }
    apply find_some in Ef. destruct Ef as [Hst0 _].
    replace (update_row s dd st0) with (@None RoadmapStep); [reflexivity|].
    symmetry. destruct Hcase as [Ht|[Hwf [v [rid [Hr' [Hv Hno]]]]]].
    + apply update_row_title_null.
      destruct (bind_patch_fields body dd Eb) as [_ Et]. rewrite Ht in Et.
      injection Et as Et. symmetry. exact Et.
    + destruct (proj2 Hwf st0 Hst0) as [rm0 [Hrm0 Hid0]].
      apply (update_row_fk_fail s dd st0 rid).
      * destruct (bind_patch_fields body dd Eb) as [Er _]. rewrite Hr' in Er.
        destruct v; [vm_compute in Hv; discriminate Hv| | | | |];
          unfold bind_entry in Er; rewrite Hv in Er; injection Er as Er; symmetry; exact Er.
      * rewrite <- Hid0. intros E. exact (Hno rm0 Hrm0 (eq_sym E)).
      * destruct (existsb _ _) eqn:Ex; [|reflexivity].
        apply existsb_exists in Ex. destruct Ex as [rr [Hrr Heq]]. apply Z.eqb_eq in Heq.
        exfalso. exact (Hno rr Hrr Heq).
  - intros d r n b Hd Hn Hr Hlt.
    rewrite (patch_step_route_id s d r n (isCompleted_only b) Hd Hn Hr Hlt).
    rewrite (forallb_none_false _ (JBool b)) by (simpl; tauto).
    rewrite bind_patch_completed. unfold updateRoadmapStep. split.
    + intros Hno. destruct (find _ _) eqn:Ef; [|reflexivity].
      apply find_some in Ef. destruct Ef as [Hin Heq]. apply Z.eqb_eq in Heq.
      exfalso. exact (Hno _ Hin Heq).
    + intros Hnd [st [Hst Hid]].
      destruct (find (fun st => Z.eqb (st_id st) n) (roadmapSteps s)) as [st0|] eqn:Ef.
      2:{ exfalso. pose proof (find_none _ _ Ef st Hst) as Hn0. simpl in Hn0.
          rewrite Hid, Z.eqb_refl in Hn0. discriminate Hn0. }
      rewrite update_row_completed. cbn [bind_opt].
      rewrite (traverse_opt_some _ (fun st => if Z.eqb (st_id st) n then with_completed b st
                                              else st)).
      * cbn [bind_opt]. rewrite ids_unique_NoDup; [reflexivity|].
        rewrite map_map. replace (map _ (roadmapSteps s)) with (map st_id (roadmapSteps s));
          [exact Hnd|].
        apply map_ext. intros x. destruct (Z.eqb (st_id x) n); reflexivity.
      * intros x _. destruct (Z.eqb (st_id x) n); [apply update_row_completed|reflexivity].
Qed.

(** ** Invariants kept by the routes *)

Lemma select_request_cases : forall s u p up,
  snd (select_request s u p up) = s \/
  exists c, snd (select_request s u p up) = snd (select_route s u c up).
Proof.
  intros s u p up. unfold select_request.
  destruct (js_parseInt p) as [z|]; [|left; reflexivity].
  destruct (negb (int4_range z)); [left; reflexivity|].
  destruct (z <? 0)%Z; [left; reflexivity|]. right. eexists. reflexivity.
Qed.

Lemma patch_step_route_store : forall s p body,
  snd (patch_step_route s p body) = s \/
  exists dd id steps',
    traverse_opt (fun st => if Z.eqb (st_id st) id then update_row s dd st else Some st)
      (roadmapSteps s) = Some steps' /\
    snd (patch_step_route s p body) = with_steps s steps'.
Proof.
  intros s p body. unfold patch_step_route.
  destruct (forallb _ _); [left; reflexivity|].
  destruct (bind_patch body) as [dd|]; [|left; reflexivity].
  destruct (js_parseInt p) as [id|]; [|left; reflexivity].
  destruct (negb (int4_range id)); [left; reflexivity|].
  unfold updateRoadmapStep.
  destruct (find _ _); [|left; reflexivity].
  destruct (update_row s dd r); [|left; reflexivity]. cbn [bind_opt].
  destruct (traverse_opt _ _) as [steps'|] eqn:Et; [|left; reflexivity]. cbn [bind_opt].
  destruct (ids_unique steps'); [|left; reflexivity].
  right. exists dd, id, steps'. split; [exact Et|reflexivity].
Qed.

Lemma patch_step_route_keeps : forall s p body,
  careerPaths (snd (patch_step_route s p body)) = careerPaths s /\
  roadmaps (snd (patch_step_route s p body)) = roadmaps s /\
  next_cp_id (snd (patch_step_route s p body)) = next_cp_id s /\
  next_rm_id (snd (patch_step_route s p body)) = next_rm_id s.
Proof.
  intros s p body.
  destruct (patch_step_route_store s p body) as [E|[dd [id [steps' [_ E]]]]];
    rewrite E; repeat split.
Qed.

Lemma deleteRoadmapsForUser_fk : forall s u st,
  roadmaps_wf s -> In st (roadmapSteps (deleteRoadmapsForUser s u)) ->
  exists r, In r (roadmaps (deleteRoadmapsForUser s u)) /\ rm_id r = st_roadmapId st.
Proof.
  intros s u st [_ Hfk] Hst. simpl in Hst. apply filter_In in Hst. destruct Hst as [Hst Hkeep].
  destruct (Hfk st Hst) as [r [Hr Hid]]. exists r. split; [|exact Hid].
  simpl. apply filter_In. split; [exact Hr|].
  destruct (String.eqb (rm_userId r) u) eqn:Eu; [|reflexivity]. exfalso.
  apply negb_true_iff in Hkeep.
  assert (Hx : existsb (Nat.eqb (st_roadmapId st))
                 (map rm_id (filter (fun r => String.eqb (rm_userId r) u) (roadmaps s))) = true).
  { apply existsb_exists. exists (rm_id r). split; [|rewrite Hid; apply Nat.eqb_refl].
    apply in_map. apply filter_In. auto. }
  rewrite Hx in Hkeep. discriminate Hkeep.
Qed.

Lemma select_route_keeps_cp_ids : forall s u c up,
  cp_ids_wf s -> cp_ids_wf (snd (select_route s u c up)).
Proof.
  intros s u c up [Hnd Hlt].
  destruct (select_route_shape s u c up) as [E|[_ [newrs [newsts [Hc [_ [_ [_ [_ Hn]]]]]]]]];
    [rewrite E; split; assumption|].
  rewrite selectCareerPath_paths in Hc.
  assert (Hm : map cp_id (map (select_map u c) (careerPaths s)) = map cp_id (careerPaths s)).
  { rewrite map_map. apply map_ext. intros x. exact (proj1 (select_map_fields u c x)). }
  split.
  - rewrite Hc, Hm. exact Hnd.
  - intros p Hp. rewrite Hn. rewrite Hc in Hp. apply in_map_iff in Hp.
    destruct Hp as [x [<- Hx]]. rewrite (proj1 (select_map_fields u c x)). exact (Hlt x Hx).
Qed.

Lemma generate_route_keeps_cp_ids : forall s u up,
  cp_ids_wf s -> cp_ids_wf (snd (generate_route s u up)).
Proof.
  intros s u up [Hnd Hlt].
  destruct (generate_route_cases s u up) as [E|[Hne Hu]]; [rewrite E; split; assumption|].
  destruct (generate_route_shape s u up Hne Hu) as [rows [Hc [_ [_ [Hn [_ [Hids _]]]]]]].
  change (careerPaths (deleteAllCareerPathsForUser s u))
    with (filter (fun p => negb (String.eqb (cp_userId p) u)) (careerPaths s)) in Hc.
  split.
  - rewrite Hc, map_app, Hids. apply NoDup_app.
    + apply NoDup_map_filter. exact Hnd.
    + apply seq_NoDup.
    + intros a Ha Hb. apply in_seq in Hb. apply in_map_iff in Ha.
      destruct Ha as [p [<- Hp]]. apply filter_In in Hp. pose proof (Hlt p (proj1 Hp)). lia.
  - intros p Hp. rewrite Hn. rewrite Hc in Hp. apply in_app_or in Hp. destruct Hp as [Hp|Hp].
    + apply filter_In in Hp. pose proof (Hlt p (proj1 Hp)). lia.
    + assert (Hi : In (cp_id p) (seq (next_cp_id s) (length rows)))
        by (rewrite <- Hids; apply in_map; exact Hp).
      apply in_seq in Hi. lia.
Qed.

(** Career-path ids stay a primary key below their sequence: the
    generate, select and PATCH requests, whatever their parameters and
    body, keep [cp_ids_wf], the hypothesis under which a selection leaves
    exactly one path selected. *)
Theorem routes_keep_career_path_keys : forall s u p up q body,
  cp_ids_wf s ->
  cp_ids_wf (snd (generate_route s u up)) /\
  cp_ids_wf (snd (select_request s u p up)) /\
  cp_ids_wf (snd (patch_step_route s q body)).
Proof.
  intros s u p up q body Hwf. split; [|split].
  - exact (generate_route_keeps_cp_ids s u up Hwf).
  - destruct (select_request_cases s u p up) as [E|[c E]]; rewrite E;
      [exact Hwf|exact (select_route_keeps_cp_ids s u c up Hwf)].
  - destruct Hwf as [Hnd Hlt]. destruct (patch_step_route_keeps s q body) as [Hc [_ [Hn _]]].
    unfold cp_ids_wf. rewrite Hc, Hn. split; assumption.
Qed.

Lemma generate_route_keeps_roadmap_keys : forall s u up,
  roadmap_keys_wf s -> roadmap_keys_wf (snd (generate_route s u up)).
Proof.
  intros s u up [[Hlt Hfk] Hnd].
  destruct (generate_route_cases s u up) as [E|[Hne Hu]];
    [rewrite E; split; [split|]; assumption|].
  destruct (generate_route_shape s u up Hne Hu) as [rows [_ [Hr [Hs [_ [Hn _]]]]]].
  split; [split|].
  - intros r Hin. rewrite Hn. rewrite Hr, deleteAll_roadmaps_in in Hin.
    exact (Hlt r (proj1 Hin)).
  - intros st Hst. rewrite Hs in Hst. pose proof Hst as Hst'.
    rewrite (proj2 (deleteAll_tables s u)), filter_In in Hst'.
    destruct (Hfk st (proj1 Hst')) as [r [Hin Hid]]. exists r. split; [|exact Hid].
    rewrite Hr, deleteAll_roadmaps_in. split; [exact Hin|]. intros Ht.
    exact (deleteAll_steps_of_tied s u r st Hin Ht Hst (eq_sym Hid)).
  - rewrite Hr, (proj1 (deleteAll_tables s u)). apply NoDup_map_filter. exact Hnd.
Qed.

Lemma select_route_keeps_roadmap_keys : forall s u c up,
  roadmap_keys_wf s -> roadmap_keys_wf (snd (select_route s u c up)).
Proof.
  intros s u c up [[Hlt Hfk] Hnd].
  destruct (select_route_shape s u c up)
    as [E|[_ [newrs [newsts [_ [Hr [Hs [Hn [Hnew _]]]]]]]]];
    [rewrite E; split; [split|]; assumption|].
  assert (Hold : forall r, In r (roadmaps (deleteRoadmapsForUser s u)) -> In r (roadmaps s)).
  { intros r Hin. simpl in Hin. apply filter_In in Hin. exact (proj1 Hin). }
  assert (Hnd1 : NoDup (map rm_id (roadmaps (deleteRoadmapsForUser s u))))
    by (simpl; apply NoDup_map_filter; exact Hnd).
  destruct Hn as [[-> [-> Hn]]|[r [-> [Hru [Hrid [_ Hn]]]]]].
  - rewrite app_nil_r in Hr, Hs. split; [split|].
    + intros r Hin. rewrite Hn. rewrite Hr in Hin. exact (Hlt r (Hold r Hin)).
    + intros st Hst. rewrite Hs in Hst. rewrite Hr.
      exact (deleteRoadmapsForUser_fk s u st (conj Hlt Hfk) Hst).
    + rewrite Hr. exact Hnd1.
  - split; [split|].
    + intros r' Hin. rewrite Hn. rewrite Hr in Hin. apply in_app_or in Hin.
      destruct Hin as [Hin|[<-|[]]]; [pose proof (Hlt r' (Hold r' Hin))|]; lia.
    + intros st Hst. rewrite Hs in Hst. rewrite Hr. apply in_app_or in Hst.
      destruct Hst as [Hst|Hst].
      * destruct (deleteRoadmapsForUser_fk s u st (conj Hlt Hfk) Hst) as [r0 [Hr0 Hid0]].
        exists r0. split; [apply in_or_app; left; exact Hr0|exact Hid0].
      * exists r. split; [apply in_or_app; right; left; reflexivity|].
        rewrite Hrid. symmetry. exact (proj1 (Hnew st Hst)).
    + rewrite Hr, map_app. apply NoDup_app; [exact Hnd1|repeat constructor; intros []|].
      intros a Ha [Hb|[]]. rewrite <- Hb, Hrid in Ha. apply in_map_iff in Ha.
      destruct Ha as [r' [Hr'id Hr']]. pose proof (Hlt r' (Hold r' Hr')). lia.
Qed.

Lemma patch_step_route_keeps_roadmap_keys : forall s q body,
  roadmap_keys_wf s -> roadmap_keys_wf (snd (patch_step_route s q body)).
Proof.
  intros s q body [[Hlt Hfk] Hnd].
  destruct (patch_step_route_store s q body) as [E|[dd [id [steps' [Et E]]]]];
    rewrite E; [split; [split|]; assumption|].
  split; [split|]; [exact Hlt| |exact Hnd].
  intros st' Hst'. cbn [roadmapSteps with_steps] in Hst'. cbn [roadmaps with_steps].
  destruct (traverse_opt_in _ _ _ st' Et Hst') as [st [Hst Hf]].
  destruct (Z.eqb (st_id st) id).
  - destruct (update_row_roadmapId s dd st st' Hf) as [Hkeep|Hnew]; [|exact Hnew].
    rewrite Hkeep. exact (Hfk st Hst).
  - injection Hf as <-. exact (Hfk st Hst).
Qed.

(** Roadmap ids stay a primary key below their sequence and every step
    references an existing roadmap: the generate and select requests
    (for any career-path id, and for any id parameter of the request)
    keep [roadmap_keys_wf], which contains [roadmaps_wf], the hypothesis
    of the select properties, and so does a PATCH, whatever its id
    parameter and body. *)
Theorem routes_keep_roadmap_keys : forall s u c up p q body,
  roadmap_keys_wf s ->
  roadmap_keys_wf (snd (generate_route s u up)) /\
  roadmap_keys_wf (snd (select_route s u c up)) /\
  roadmap_keys_wf (snd (select_request s u p up)) /\
  roadmap_keys_wf (snd (patch_step_route s q body)).
Proof.
  intros s u c up p q body Hwf. split; [|split; [|split]].
  - exact (generate_route_keeps_roadmap_keys s u up Hwf).
  - exact (select_route_keeps_roadmap_keys s u c up Hwf).
  - destruct (select_request_cases s u p up) as [E|[c' E]]; rewrite E;
      [exact Hwf|exact (select_route_keeps_roadmap_keys s u c' up Hwf)].
  - exact (patch_step_route_keeps_roadmap_keys s q body Hwf).
Qed.

(** ** Instances of the properties of the routes *)

Lemma example_store_keys : roadmap_keys_wf example_store.
Proof.
  split; [exact example_store_wf|]. cbn.
  apply NoDup_cons; [intros [H|[]]; discriminate H|].
  apply NoDup_cons; [intros []|apply NoDup_nil].
Qed.

Lemma example_store_cp_ids : cp_ids_wf example_store.
Proof.
  split.
  - cbn. apply NoDup_cons; [intros []|apply NoDup_nil].
  - intros p [<-|[]]. cbn. lia.
Qed.

Lemma example_store_step_ids : NoDup (map st_id (roadmapSteps example_store)).
Proof.
  cbn. apply NoDup_cons; [intros [H|[]]; discriminate H|].
  apply NoDup_cons; [intros []|apply NoDup_nil].
Qed.

Lemma select_request_rejects_foreign_path_witness :
  select_request example_store "v" "1" UTransportError = (Err404, example_store) /\
  select_request example_store "v" "3000000000" UTransportError = (Err500, example_store) /\
  select_request example_store "v" "abc" UTransportError = (Err500, example_store).
Proof.
  destruct (select_request_rejects_foreign_path example_store "v" UTransportError) as [Hd Hn].
  split; [|split].
  - destruct (Hd "1" "" 1%Z ltac:(discriminate) eq_refl eq_refl) as [H _].
    apply H; [lia|]. right.
    exists (mkCareerPath 1 "u" "Dev" "d" 80 [] ["JavaScript"; "React"; "SQL"] None None false).
    split; [reflexivity|discriminate].
  - destruct (Hd "3000000000" "" 3000000000%Z ltac:(discriminate) eq_refl eq_refl) as [_ H].
    apply H. lia.
  - apply (Hn "a"%char "bc"); [reflexivity|reflexivity|discriminate|discriminate].
Defined.

Lemma select_route_partial_failure_witness :
  select_route example_store "u" 1 (UJson (JObj []))
  = (Err500, deleteRoadmapsForUser (selectCareerPath example_store "u" 1) "u") /\
  getRoadmap (snd (select_route example_store "u" 1 (UJson (JObj [])))) "u" = None /\
  exists r, getRoadmap (snd (select_route example_store "u" 1
                               (UJson (JObj [("title", JStr "Plan")])))) "u" = Some (r, []) /\
            rm_title r = "Plan" /\ rm_careerPathId r = Some 1.
Proof.
  set (cp := mkCareerPath 1 "u" "Dev" "d" 80 [] ["JavaScript"; "React"; "SQL"] None None false).
  destruct (select_route_partial_failure example_store "u" 1 (JObj []) cp eq_refl eq_refl)
    as [H1 _].
  destruct (H1 (or_intror (or_introl eq_refl))) as [E [_ Hnone]].
  split; [exact E|]. split; [exact Hnone|].
  destruct (select_route_partial_failure example_store "u" 1
              (JObj [("title", JStr "Plan")]) cp eq_refl eq_refl) as [_ H2].
  destruct (H2 "Plan" eq_refl eq_refl (or_introl eq_refl)
              ltac:(intros xs Hx; discriminate Hx) example_store_wf) as [_ [_ Hr]].
  exact Hr.
Defined.

Lemma select_route_ok_dashboard_witness :
  roadmaps_wf example_store /\
  select_route example_store "u" 1 UTransportError
  = (Ok200, snd (select_route example_store "u" 1 UTransportError)) /\
  dashboard_stats (snd (select_route example_store "u" 1 UTransportError)) "u"
  = (Ok200, mkStats 0 9).
Proof.
  assert (Hr : select_route example_store "u" 1 UTransportError
               = (Ok200, snd (select_route example_store "u" 1 UTransportError)))
    by (vm_compute; reflexivity).
  split; [exact example_store_wf|]. split; [exact Hr|].
  destruct (select_route_ok_dashboard example_store "u" 1 UTransportError _
              example_store_wf Hr) as [cp [steps [_ [_ [Hd Hlen]]]]].
  rewrite Hd, (Hlen (or_introl eq_refl)). reflexivity.
Defined.

Lemma select_route_other_user_roadmap_witness :
  roadmap_keys_wf example_store /\ "v" <> "u" /\
  getRoadmap (snd (select_route example_store "u" 1 UTransportError)) "v"
  = Some (mkRoadmap 2 "v" None "Other" None 1,
          [mkStep 2 2 "Beginner" "Other step" "y" [] None 0 (Some false)]) /\
  dashboard_stats (snd (select_route example_store "u" 1 UTransportError)) "v"
  = (Ok200, mkStats 0 1).
Proof.
  assert (Hv : "v" <> "u") by discriminate.
  split; [exact example_store_keys|]. split; [exact Hv|].
  destruct (select_route_other_user_roadmap example_store "u" "v" 1 UTransportError
              example_store_keys Hv) as [Hg Hd].
  rewrite Hg, Hd. split; reflexivity.
Defined.

Lemma patch_step_route_status_witness :
  patch_step_route example_store "2" (patch_of_body []) = (Err500, example_store) /\
  patch_step_route example_store "2" (patch_of_body [("createdAt", JStr "2024-01-01")])
  = (Err500, example_store) /\
  patch_step_route example_store "abc" (isCompleted_only true) = (Err500, example_store) /\
  patch_step_route example_store "3000000000" (isCompleted_only true)
  = (Err500, example_store) /\
  patch_step_route example_store "2" (patch_of_body [("title", JNull)])
  = (Err500, example_store) /\
  patch_step_route example_store "2" (patch_of_body [("roadmapId", JNum 7)])
  = (Err500, example_store) /\
  patch_step_route example_store "7" (isCompleted_only true) = (Err404, example_store) /\
  patch_step_route example_store "2" (isCompleted_only true)
  = (Ok200, with_steps example_store
              [mkStep 1 1 "Beginner" "Old step" "x" [] None 0 (Some true);
               mkStep 2 2 "Beginner" "Other step" "y" [] None 0 (Some true)]).
Proof.
  destruct (patch_step_route_status example_store)
    as [Hempty [Hcreated [Hnan [Hbig [Hfail Hcompleted]]]]].
  assert (Hst2 : exists st, In st (roadmapSteps example_store) /\ st_id st = 2%Z).
  { exists (mkStep 2 2 "Beginner" "Other step" "y" [] None 0 (Some false)).
    split; [simpl; auto|reflexivity]. }
  split; [apply Hempty; intros kv []|].
  split; [apply (Hcreated _ _ (JStr "2024-01-01")); [reflexivity|discriminate]|].
  split; [apply (Hnan "a"%char "bc"); [reflexivity|reflexivity|discriminate|discriminate]|].
  split; [apply (Hbig "3000000000" "" 3000000000%Z);
          [discriminate|reflexivity|reflexivity|lia]|].
  split; [apply (Hfail "2" "" 2%Z); [discriminate|reflexivity|reflexivity|lia|exact Hst2|];
          left; reflexivity|].
  split; [apply (Hfail "2" "" 2%Z); [discriminate|reflexivity|reflexivity|lia|exact Hst2|];
          right; split; [exact example_store_wf|];
          exists (JNum 7), 7%Z; split; [reflexivity|]; split; [vm_compute; reflexivity|];
          intros rm [<-|[<-|[]]]; simpl; lia|].
  destruct (Hcompleted "7" "" 7%Z true ltac:(discriminate) eq_refl eq_refl ltac:(lia))
    as [H404 _].
  destruct (Hcompleted "2" "" 2%Z true ltac:(discriminate) eq_refl eq_refl ltac:(lia))
    as [_ H200].
  split; [apply H404; intros st [<-|[<-|[]]]; discriminate|].
  exact (H200 example_store_step_ids Hst2).
Defined.

Lemma routes_keep_career_path_keys_witness :
  cp_ids_wf example_store /\
  cp_ids_wf (snd (generate_route example_store "u" UTransportError)) /\
  cp_ids_wf (snd (select_request example_store "u" "1" UTransportError)) /\
  cp_ids_wf (snd (patch_step_route example_store "2" (isCompleted_only true))).
Proof.
  split; [exact example_store_cp_ids|].
  exact (routes_keep_career_path_keys example_store "u" "1" UTransportError "2"
           (isCompleted_only true) example_store_cp_ids).
Defined.

Lemma routes_keep_roadmap_keys_witness :
  roadmap_keys_wf example_store /\
  roadmap_keys_wf (snd (generate_route example_store "u" UTransportError)) /\
  roadmap_keys_wf (snd (select_route example_store "u" 1 UTransportError)) /\
  roadmap_keys_wf (snd (select_request example_store "u" "1" UTransportError)) /\
  roadmap_keys_wf (snd (patch_step_route example_store "2"
                          (patch_of_body [("roadmapId", JNum 2)]))).
Proof.
  split; [exact example_store_keys|].
  exact (routes_keep_roadmap_keys example_store "u" 1 UTransportError "1" "2"
           (patch_of_body [("roadmapId", JNum 2)]) example_store_keys).
Defined.
